(** * Deep Research automation: completion detection and result extraction

    A shallow embedding of [scripts/deep_research.py] and of the constants of
    [scripts/config.py] it uses: the locator resolver ([find_element],
    [find_element_quick]), the polling loop of [run_deep_research] and the
    five capture strategies that follow it.

    Conventions of the embedding.
    - Python [int] is [Z]; [len] of a list is [Z.of_nat (length _)].
    - Python [str] is [string]; one [ascii] stands for one character, and
      [len] of a text is [String.length].
    - [time.time()] is a clock reading in milliseconds, a [Z];
      [int (t1 - t0)] truncates the difference to whole seconds.
    - A Playwright call either returns or raises: its outcome is an [exc].
      [try ... except Exception] is [try_except]; an exception that no
      handler inside the function catches reaches the outer handler of
      [run_deep_research].
    - [print] and [time.sleep] do not influence any returned value and are
      left out; the clock readings that surround them are inputs. *)

From Stdlib Require Import ZArith List String Ascii Bool Lia.
Import ListNotations.
Open Scope string_scope.
Open Scope Z_scope.

(** ** Calls that may raise *)

Inductive exc (A : Type) : Type :=
| Ret (a : A)
| Raise (e : string).
Arguments Ret {A} a.
Arguments Raise {A} e.

Definition bind {A B : Type} (m : exc A) (k : A -> exc B) : exc B :=
  match m with
  | Ret a => k a
  | Raise e => Raise e
  end.

Notation "x <- m ;; k" := (bind m (fun x => k))
  (at level 61, m at next level, right associativity).

(** [try: body / except Exception: handler]. The handler is itself code
    that may raise; [pass] and [continue] are a [Ret] of the values the
    surrounding code goes on with. *)
Definition try_except {A : Type} (body handler : exc A) : exc A :=
  match body with
  | Ret a => Ret a
  | Raise _ => handler
  end.

(** ** The page as the script observes it *)

(** An element handle: what [el.is_visible()] and [el.inner_text()] give. *)
Record Element : Type := mkElement {
  is_visible : exc bool;
  inner_text : exc string;
}.

(** A page at one instant. [wait_for_selector sel timeout] is the call with
    [state="visible"]; [page_inner_text sel] is [page.inner_text(sel)]. *)
Record Page : Type := mkPage {
  wait_for_selector : string -> Z -> exc (option Element);
  query_selector : string -> exc (option Element);
  query_selector_all : string -> exc (list Element);
  page_inner_text : string -> exc string;
}.

(** [len] of a list and of a text. *)
Definition len {A : Type} (l : list A) : Z := Z.of_nat (List.length l).
Definition len_str (s : string) : Z := Z.of_nat (String.length s).

(** ** Locator resolver *)

Definition NotFound : option Element * option string := (None, None).

Fixpoint find_element (page : Page) (selectors : list string)
    (description : string) (timeout : Z)
  : exc (option Element * option string) :=
  match selectors with
  | [] => Ret NotFound
  | selector :: rest =>
      found <- try_except
                 (element <- wait_for_selector page selector timeout ;;
                  Ret element)
                 (Ret None) ;;
      match found with
      | Some element => Ret (Some element, Some selector)
      | None => find_element page rest description timeout
      end
  end.

Fixpoint find_element_quick (page : Page) (selectors : list string)
    (description : string)
  : exc (option Element * option string) :=
  match selectors with
  | [] => Ret NotFound
  | selector :: rest =>
      found <- try_except
                 (element <- query_selector page selector ;;
                  match element with
                  | None => Ret None
                  | Some el =>
                      visible <- is_visible el ;;
                      Ret (if visible then Some el else None)
                  end)
                 (Ret None) ;;
      match found with
      | Some element => Ret (Some element, Some selector)
      | None => find_element_quick page rest description
      end
  end.

(** ** Constants of [config.py] and selector literals of the script *)

(** The double-quote character, for selectors that contain one. *)
Definition dq : string := String "034"%char EmptyString.
Definition quoted (s : string) : string := dq ++ s ++ dq.
Definition class_has (s : string) : string := "[class*=" ++ quoted s ++ "]".

Definition DEEP_RESEARCH_TIMEOUT_SECONDS : Z := 600.
Definition DEEP_RESEARCH_POLL_INTERVAL : Z := 10.

Definition DEEP_RESEARCH_REPORT_SELECTORS : list string :=
  [ ".research-report";
    ".report-content";
    "[data-report-type]";
    "[role=" ++ quoted "article" ++ "]";
    ".source-card" ].

Definition DEEP_RESEARCH_LOADING_SELECTORS : list string :=
  [ "[aria-label*=" ++ quoted "loading" ++ " i]";
    "[aria-label*=" ++ quoted "searching" ++ " i]";
    ".progress-indicator";
    "[role=" ++ quoted "progressbar" ++ "]" ].

(** The selector of the baseline count (line 390). *)
Definition initial_sources_selector : string :=
  ".source-card, [data-source-id], .source-item, "
  ++ class_has "source-list" ++ " > *".

(** The selector of the count taken at every tick (lines 403-406). *)
Definition sources_selector : string :=
  ".source-card, [data-source-id], .source-item, "
  ++ class_has "source-list" ++ " > *, " ++ class_has "source_list" ++ " > *".

Definition spinners_selector : string :=
  class_has "spinner" ++ ", " ++ class_has "loading" ++ ", "
  ++ class_has "progress" ++ ", "
  ++ class_has "searching" ++ ", " ++ class_has "animat".

Definition report_sources_selector : string :=
  class_has "source" ++ ":has-text(" ++ quoted "Deep Research report" ++ "), "
  ++ class_has "source" ++ ":has-text(" ++ quoted "deep research" ++ ")".

Definition chat_selectors : list string :=
  [ ".to-user-container .message-text-content";
    "[data-message-author='bot']";
    "[data-message-author='assistant']";
    class_has "response";
    class_has "answer" ].

Definition opened_report_selectors : list string :=
  [ class_has "report";
    class_has "content";
    "[role=" ++ quoted "article" ++ "]";
    "main";
    ".content" ].

Definition sources_panel_selector : string := class_has "source".

(** ** The polling loop of [run_deep_research] (step 7) *)

(** The variables the loop carries from one round to the next.
    [last_status] only feeds a [print] and is left out. *)
Record LoopState : Type := mkLoopState {
  last_sources_count : Z;
  stable_count : Z;
  check_num : Z;
}.

(** What one round of the loop reads from outside: the clock in the loop
    condition, the clock for [elapsed], and the page. *)
Record Tick : Type := mkTick {
  now_cond : Z;
  now_elapsed : Z;
  tick_page : Page;
}.

(** [int (t1 - t0)] for clock readings in milliseconds. *)
Definition int_seconds (t1 t0 : Z) : Z := Z.quot (t1 - t0) 1000.

(** The [for x in xs: if x.is_visible(): ...; break] loops: [true] when
    the body ran for some element, raising when an [is_visible] call
    raises before that. *)
Fixpoint any_visible (els : list Element) : exc bool :=
  match els with
  | [] => Ret false
  | el :: rest =>
      visible <- is_visible el ;;
      if visible then Ret true else any_visible rest
  end.

(** Lines 401-417: the count of source elements. *)
Definition sample_sources (page : Page) (st : LoopState) : exc LoopState :=
  try_except
    (source_elements <- query_selector_all page sources_selector ;;
     let current_count := len source_elements in
     if negb (current_count =? last_sources_count st)
     then Ret (mkLoopState current_count 0 (check_num st))
     else Ret (mkLoopState (last_sources_count st) (stable_count st + 1)
                 (check_num st)))
    (Ret st).

(** Lines 420-428: the configured loading indicators. *)
Fixpoint loading_indicator (page : Page) (sels : list string) : exc bool :=
  match sels with
  | [] => Ret false
  | sel :: rest =>
      hit <- try_except
               (loader <- query_selector page sel ;;
                match loader with
                | None => Ret false
                | Some l => is_visible l
                end)
               (Ret false) ;;
      if hit then Ret true else loading_indicator page rest
  end.

(** Lines 430-442: spinners, progress bars, animations. *)
Definition spinner_check (page : Page) (is_loading : bool) : exc bool :=
  if negb is_loading
  then try_except
         (spinners <- query_selector_all page spinners_selector ;;
          seen <- any_visible spinners ;;
          Ret (if seen then true else is_loading))
         (Ret is_loading)
  else Ret is_loading.

(** Lines 444-458: the Deep Research report showing up as a source. When
    it is visible, [is_loading] becomes [False] and [stable_count] 10. *)
Definition report_source_check (page : Page) (is_loading : bool)
    (st : LoopState) : exc (bool * LoopState) :=
  try_except
    (report_sources <- query_selector_all page report_sources_selector ;;
     match report_sources with
     | [] => Ret (is_loading, st)
     | _ :: _ =>
         appeared <- any_visible report_sources ;;
         if appeared
         then Ret (false,
                   mkLoopState (last_sources_count st) 10 (check_num st))
         else Ret (is_loading, st)
     end)
    (Ret (is_loading, st)).

(** Line 469: stable for 5 polls with new sources and no loading. *)
Definition primary_rule (st : LoopState) (is_loading : bool)
    (initial_source_count : Z) : bool :=
  let new_sources := last_sources_count st - initial_source_count in
  (5 <=? stable_count st) && negb is_loading && (0 <? new_sources).

(** Line 475: stable for a long time, even with no new sources. *)
Definition fallback_rule (st : LoopState) (is_loading : bool) (elapsed : Z)
  : bool :=
  (12 <=? stable_count st) && negb is_loading && (60 <? elapsed).

(** The body of the [while] loop, lines 397-477: the state after the round
    and whether the round ended in [break]. *)
Definition poll_tick (initial_source_count start_time : Z)
    (st : LoopState) (tk : Tick) : exc (LoopState * bool) :=
  let st := mkLoopState (last_sources_count st) (stable_count st)
              (check_num st + 1) in
  let elapsed := int_seconds (now_elapsed tk) start_time in
  let page := tick_page tk in
  st <- sample_sources page st ;;
  is_loading <- loading_indicator page DEEP_RESEARCH_LOADING_SELECTORS ;;
  is_loading <- spinner_check page is_loading ;;
  r <- report_source_check page is_loading st ;;
  let '(is_loading, st) := r in
  if primary_rule st is_loading initial_source_count then Ret (st, true)
  else if fallback_rule st is_loading elapsed then Ret (st, true)
  else Ret (st, false).

(** How the loop was left: by [break], by its condition becoming false, or
    not at all within the rounds that were observed. *)
Inductive LoopExit : Type := Break | Deadline | Unfinished.

(** Lines 396-479. [ticks] are the successive rounds as observed. *)
Fixpoint poll_loop (initial_source_count start_time deadline : Z)
    (st : LoopState) (ticks : list Tick) : exc (LoopExit * LoopState) :=
  match ticks with
  | [] => Ret (Unfinished, st)
  | tk :: rest =>
      if now_cond tk <? deadline
      then
        r <- poll_tick initial_source_count start_time st tk ;;
        let '(st', stop) := r in
        if stop then Ret (Break, st')
        else poll_loop initial_source_count start_time deadline st' rest
      else Ret (Deadline, st)
  end.

(** ** Capturing the result (lines 484-574) *)

(** [str.isspace] on the characters below 256. *)
Definition isspace (c : ascii) : bool :=
  let n := nat_of_ascii c in
  (((9 <=? n) && (n <=? 13)) || ((28 <=? n) && (n <=? 32))
   || (n =? 133) || (n =? 160))%nat.

Fixpoint lstrip (s : string) : string :=
  match s with
  | EmptyString => EmptyString
  | String c rest => if isspace c then lstrip rest else s
  end.

Fixpoint rstrip (s : string) : string :=
  match s with
  | EmptyString => EmptyString
  | String c rest =>
      match rstrip rest with
      | EmptyString => if isspace c then EmptyString else String c EmptyString
      | kept => String c kept
      end
  end.

(** [s.strip()]. *)
Definition strip (s : string) : string := lstrip (rstrip s).

(** [not report_text] for a value that is [None] or a text. *)
Definition py_not (report_text : option string) : bool :=
  match report_text with
  | None => true
  | Some EmptyString => true
  | Some (String _ _) => false
  end.

(** [max(texts, key=len)] on a non-empty list [first :: others]: the
    first text of maximal length. *)
Fixpoint max_key_len (best : string) (others : list string) : string :=
  match others with
  | [] => best
  | t :: rest =>
      if len_str best <? len_str t then max_key_len t rest
      else max_key_len best rest
  end.

(** Lines 504-509: the texts longer than 100 of the visible elements. *)
Fixpoint chat_texts (elements : list Element) : exc (list string) :=
  match elements with
  | [] => Ret []
  | el :: rest =>
      visible <- is_visible el ;;
      if visible
      then
        raw <- inner_text el ;;
        let text := strip raw in
        texts <- chat_texts rest ;;
        Ret (if 100 <? len_str text then text :: texts else texts)
      else chat_texts rest
  end.

(** Strategy 1, lines 499-515: the chat area. *)
Fixpoint strategy1_chat (page : Page) (sels : list string)
  : exc (option string) :=
  match sels with
  | [] => Ret None
  | sel :: rest =>
      got <- try_except
               (elements <- query_selector_all page sel ;;
                match elements with
                | [] => Ret None
                | _ :: _ =>
                    texts <- chat_texts elements ;;
                    match texts with
                    | [] => Ret None
                    | t :: ts => Ret (Some (max_key_len t ts))
                    end
                end)
               (Ret None) ;;
      match got with
      | Some report_text => Ret (Some report_text)
      | None => strategy1_chat page rest
      end
  end.

(** Line 523: the texts longer than 50 of the visible elements; the text
    of an element is read once for the test and once for the value. *)
Fixpoint report_texts (elements : list Element) : exc (list string) :=
  match elements with
  | [] => Ret []
  | el :: rest =>
      visible <- is_visible el ;;
      if visible
      then
        raw <- inner_text el ;;
        if 50 <? len_str (strip raw)
        then
          raw' <- inner_text el ;;
          texts <- report_texts rest ;;
          Ret (strip raw' :: texts)
        else report_texts rest
      else report_texts rest
  end.

Definition blank_line : string := String "010"%char (String "010"%char "").

(** Strategy 2, lines 518-529: the report selectors of the configuration. *)
Fixpoint strategy2_report (page : Page) (sels : list string)
    (report_text : option string) : exc (option string) :=
  match sels with
  | [] => Ret report_text
  | sel :: rest =>
      got <- try_except
               (elements <- query_selector_all page sel ;;
                match elements with
                | [] => Ret None
                | _ :: _ =>
                    texts <- report_texts elements ;;
                    match texts with
                    | [] => Ret None
                    | _ :: _ => Ret (Some (String.concat blank_line texts))
                    end
                end)
               (Ret None) ;;
      match got with
      | Some joined => Ret (Some joined)
      | None => strategy2_report page rest report_text
      end
  end.

(** Lines 541-551: reading the report that the click opened. *)
Fixpoint read_opened_report (page : Page) (sels : list string)
    (report_text : option string) : exc (option string) :=
  match sels with
  | [] => Ret report_text
  | sel :: rest =>
      got <- try_except
               (el <- query_selector page sel ;;
                match el with
                | None => Ret None
                | Some el =>
                    visible <- is_visible el ;;
                    if visible
                    then
                      raw <- inner_text el ;;
                      let text := strip raw in
                      Ret (if 200 <? len_str text then Some text else None)
                    else Ret None
                end)
               (Ret None) ;;
      match got with
      | Some text => Ret (Some text)
      | None => read_opened_report page rest report_text
      end
  end.

(** Strategy 3, lines 532-553. [click] is the outcome of the click on the
    report link and of the delay after it (lines 535-538), [page] the page
    after the attempt. *)
Definition strategy3_click (click : exc unit) (page : Page)
    (report_text : option string) : exc (option string) :=
  try_except
    (_ <- click ;;
     read_opened_report page opened_report_selectors report_text)
    (Ret report_text).

(** Strategy 4, lines 556-565: the sources panel. The text is assigned to
    [report_text] before its length is looked at, and the length only
    decides whether a line is printed. *)
Definition strategy4_sources (page : Page) (report_text : option string)
  : exc (option string) :=
  try_except
    (sources_panel <- query_selector page sources_panel_selector ;;
     match sources_panel with
     | None => Ret report_text
     | Some panel =>
         raw <- inner_text panel ;;
         Ret (Some (strip raw))
     end)
    (Ret report_text).

(** Strategy 5, lines 568-574: the text of the whole page. *)
Definition strategy5_body (page : Page) (report_text : option string)
  : exc (option string) :=
  try_except
    (text <- page_inner_text page "body" ;;
     Ret (Some text))
    (Ret report_text).

(** The chain. [page] is the page when the capture starts; strategies 3 to
    5 read [clicked_page], the page once the click of strategy 3 has been
    tried. *)
Definition capture (page : Page) (click : exc unit) (clicked_page : Page)
  : exc (option string) :=
  report_text <- strategy1_chat page chat_selectors ;;
  report_text <- (if py_not report_text
                  then strategy2_report page DEEP_RESEARCH_REPORT_SELECTORS
                         report_text
                  else Ret report_text) ;;
  report_text <- (if py_not report_text
                  then strategy3_click click clicked_page report_text
                  else Ret report_text) ;;
  report_text <- (if py_not report_text
                  then strategy4_sources clicked_page report_text
                  else Ret report_text) ;;
  if py_not report_text
  then strategy5_body clicked_page report_text
  else Ret report_text.

(** ** [run_deep_research] *)

(** The returned dict; a key that is absent is [None]. *)
Record Outcome : Type := mkOutcome {
  success : bool;
  error : option string;
  sources_count : option Z;
  total_sources : option Z;
  elapsed_seconds : option Z;
  report : option string;
}.

Definition failure (msg : string) : Outcome :=
  mkOutcome false (Some msg) None None None None.

(** Everything one call reads from outside.
    - [ui_steps] stands for steps 1 to 6 (lines 211-382), which open the
      notebook, find the search input, set the mode, type the topic and
      submit: [Ret true] when the request went out, [Ret false] when the
      search input was not found (line 285), [Raise] when an exception
      left them.
    - [start_time], [end_time]: the clock at lines 388 and 481.
    - [start_page]: the page at line 390; [ticks]: the rounds of the loop;
      [result_page]: the page when the capture starts; [report_click] and
      [clicked_page]: the click of strategy 3 and the page after it. *)
Record World : Type := mkWorld {
  is_authenticated : bool;
  ui_steps : exc bool;
  start_time : Z;
  start_page : Page;
  ticks : list Tick;
  end_time : Z;
  result_page : Page;
  report_click : exc unit;
  clicked_page : Page;
}.

(** The state the loop starts from (lines 391-394). *)
Definition initial_state (initial_source_count : Z) : LoopState :=
  mkLoopState initial_source_count 0 0.

(** Lines 388-479: the baseline and the loop. *)
Definition wait_for_completion (w : World) (timeout : Z)
  : exc (Z * (LoopExit * LoopState)) :=
  let deadline := start_time w + 1000 * timeout in
  elements <- query_selector_all (start_page w) initial_sources_selector ;;
  let initial_source_count := len elements in
  r <- poll_loop initial_source_count (start_time w) deadline
         (initial_state initial_source_count) (ticks w) ;;
  Ret (initial_source_count, r).

(** Lines 481-590: the capture and the returned dict. *)
Definition capture_results (w : World) (initial_source_count : Z)
    (st : LoopState) : exc Outcome :=
  let total_elapsed := int_seconds (end_time w) (start_time w) in
  let new_sources := last_sources_count st - initial_source_count in
  report_text <- capture (result_page w) (report_click w) (clicked_page w) ;;
  if py_not report_text
  then Ret (mkOutcome false (Some "Could not capture research results")
              (Some new_sources) None (Some total_elapsed) None)
  else Ret (mkOutcome true None (Some new_sources)
              (Some (last_sources_count st)) (Some total_elapsed)
              report_text).

(** The body of the outer [try] (lines 211-590). [None]: the observed
    rounds end before the loop does. *)
Definition research_body (w : World) (timeout : Z) : exc (option Outcome) :=
  submitted <- ui_steps w ;;
  if negb submitted
  then Ret (Some (failure "Could not find search input in Sources modal"))
  else
    r <- wait_for_completion w timeout ;;
    let '(initial_source_count, (exit, st)) := r in
    match exit with
    | Unfinished => Ret None
    | Break | Deadline =>
        o <- capture_results w initial_source_count st ;;
        Ret (Some o)
    end.

(** Lines 193-194: [timeout=None] stands for the configured default. *)
Definition effective_timeout (timeout : option Z) : Z :=
  match timeout with
  | None => DEEP_RESEARCH_TIMEOUT_SECONDS
  | Some t => t
  end.

(** [run_deep_research(topic, notebook_url, mode, timeout)]. The first
    three arguments only reach steps 1 to 6. *)
Definition run_deep_research (w : World) (timeout : option Z)
  : option Outcome :=
  let timeout := effective_timeout timeout in
  if negb (is_authenticated w)
  then Some (failure "Not authenticated")
  else
    match research_body w timeout with
    | Ret o => o
    | Raise e => Some (failure e)
    end.

(** The three ways a round changes the state: the round counter goes up
    (line 397), the count is compared with the last one (lines 409-415),
    the report source forces the stability counter (line 455). *)
Definition bump (st : LoopState) : LoopState :=
  mkLoopState (last_sources_count st) (stable_count st) (check_num st + 1).

Definition forced (st : LoopState) : LoopState :=
  mkLoopState (last_sources_count st) 10 (check_num st).

Definition counted (st : LoopState) (n : Z) : LoopState :=
  if negb (n =? last_sources_count st)
  then mkLoopState n 0 (check_num st)
  else mkLoopState (last_sources_count st) (stable_count st + 1)
         (check_num st).

(** ** What a round observes *)

(** The count query of the round returns [n] elements. *)
Definition sees_count (page : Page) (n : Z) : Prop :=
  exists els, query_selector_all page sources_selector = Ret els
              /\ len els = n.

(** Some loading indicator or spinner is visible: a configured selector
    whose first match is visible, with no earlier hit needed, or a spinner
    element reached by the scan of line 437. *)
Definition busy (page : Page) : Prop :=
  (exists sel l, In sel DEEP_RESEARCH_LOADING_SELECTORS
                 /\ query_selector page sel = Ret (Some l)
                 /\ is_visible l = Ret true)
  \/ (exists spinners, query_selector_all page spinners_selector = Ret spinners
                       /\ any_visible spinners = Ret true).

(** The completion marker: a report source that the scan of line 451
    finds visible. *)
Definition marker_visible (page : Page) : Prop :=
  exists report_sources,
    query_selector_all page report_sources_selector = Ret report_sources
    /\ any_visible report_sources = Ret true.

(** A round with count [n], nothing loading and no marker. *)
Definition quiet (page : Page) (n : Z) : Prop :=
  sees_count page n /\ ~ busy page /\ ~ marker_visible page.

(** [elapsed] as the round computes it. *)
Definition elapsed_at (start_time : Z) (tk : Tick) : Z :=
  int_seconds (now_elapsed tk) start_time.

(** The last count a round of [rounds] sampled without an exception,
    [initial] when there is none. *)
Definition last_sampled_count (initial : Z) (rounds : list Tick) : Z :=
  fold_left
    (fun acc tk =>
       match query_selector_all (tick_page tk) sources_selector with
       | Ret els => len els
       | Raise _ => acc
       end)
    rounds initial.

(** A selector resolves: [wait_for_selector] hands back an element, or
    [query_selector] hands back one that is visible. *)
Definition resolves_waiting (page : Page) (timeout : Z) (sel : string)
    (e : Element) : Prop :=
  wait_for_selector page sel timeout = Ret (Some e).

Definition resolves_now (page : Page) (sel : string) (e : Element) : Prop :=
  query_selector page sel = Ret (Some e) /\ is_visible e = Ret true.

(** ** Sample pages *)

Definition shown (text : string) : Element := mkElement (Ret true) (Ret text).
Definition hidden_el (text : string) : Element :=
  mkElement (Ret false) (Ret text).

Fixpoint letters (n : nat) (c : ascii) : string :=
  match n with
  | O => EmptyString
  | S k => String c (letters k c)
  end.

(** A page on which nothing matches and whose body has the text [body]. *)
Definition blank_page (body : string) : Page :=
  mkPage (fun _ _ => Raise "Timeout 10000ms exceeded")
         (fun _ => Ret None)
         (fun _ => Ret [])
         (fun sel => if String.eqb sel "body" then Ret body
                     else Raise "no such element").

(** [page] with [query_selector_all sel] answering [els] and
    [query_selector sel] and [wait_for_selector sel] its first element. *)
Definition with_elements (sel : string) (els : list Element) (page : Page)
  : Page :=
  mkPage
    (fun s t => if String.eqb s sel
                then match els with
                     | e :: _ => Ret (Some e)
                     | [] => Raise "Timeout 10000ms exceeded"
                     end
                else wait_for_selector page s t)
    (fun s => if String.eqb s sel then Ret (hd_error els)
              else query_selector page s)
    (fun s => if String.eqb s sel then Ret els
              else query_selector_all page s)
    (page_inner_text page).

(** A page whose source list has [n] entries, for the baseline query and
    for the query of the rounds, and nothing else. *)
Definition sources_page (n : nat) : Page :=
  with_elements initial_sources_selector (repeat (shown "source") n)
    (with_elements sources_selector (repeat (shown "source") n)
       (blank_page "NotebookLM")).

(** The same, with the Deep Research report shown among the sources. *)
Definition marker_page (n : nat) : Page :=
  with_elements report_sources_selector [shown "Deep Research report"]
    (sources_page n).

(** Rounds 10 seconds apart: round [k] of [clock_ticks] starts at
    [10 * k] seconds after a start at time 0. *)
Definition round_at (k : Z) (page : Page) : Tick :=
  mkTick (10000 * k) (10000 * k) page.

Fixpoint rounds_from (k : Z) (pages : list Page) : list Tick :=
  match pages with
  | [] => []
  | p :: rest => round_at k p :: rounds_from (k + 1) rest
  end.

(** A page that raises on every query. *)
Definition broken_page : Page :=
  mkPage (fun _ _ => Raise "Target closed")
         (fun _ => Raise "Target closed")
         (fun _ => Raise "Target closed")
         (fun _ => Raise "Target closed").

(** A world that is signed in, has submitted its request at time 0 on
    [start], then sees [rounds], and captures from [final]. *)
Definition submitted_world (start : Page) (rounds : list Tick)
    (finish : Z) (final : Page) : World :=
  mkWorld true (Ret true) 0 start rounds finish final
    (Raise "Timeout 30000ms exceeded") final.

(** Three candidates: the first matches a hidden element only, the second
    and the third a visible one each. *)
Definition second_button : Element := shown "Deep research".
Definition third_button : Element := shown "Fast research".
Definition candidates : list string := ["#legacy"; "#primary"; "#locale"].
Definition candidates_page : Page :=
  with_elements "#primary" [second_button]
    (with_elements "#locale" [third_button]
       (mkPage (fun _ _ => Raise "Timeout 10000ms exceeded")
               (fun s => if String.eqb s "#legacy"
                         then Ret (Some (hidden_el "old"))
                         else Ret None)
               (fun _ => Ret [])
               (fun _ => Raise "no such element"))).

(** Neither completion rule holds for these values in a round in which
    nothing is loading. *)
Definition rules_silent (initial last stable elapsed : Z) : Prop :=
  ~ (5 <= stable /\ 0 < last - initial)
  /\ ~ (12 <= stable /\ 60 < elapsed).

(** Sample streams, with a baseline of 5 sources and a start at time 0.
    [steady_rounds]: eleven rounds that see 5 sources; [round_twelve]: the
    twelfth, 110 seconds in. *)
Definition steady_rounds : list Tick :=
  rounds_from 0 (repeat (sources_page 5) 11).
Definition round_twelve : Tick := round_at 11 (sources_page 5).

(** Three rounds with 5 sources, then 8 sources from the fourth round on. *)
Definition early_rounds : list Tick :=
  rounds_from 0 (repeat (sources_page 5) 3).
Definition change_round : Tick := round_at 3 (sources_page 8).
Definition settled_rounds : list Tick :=
  rounds_from 4 (repeat (sources_page 8) 5).

(** Twelve rounds with 5 sources, then 8 sources from the thirteenth on. *)
Definition late_baseline_rounds : list Tick :=
  rounds_from 0 (repeat (sources_page 5) 12).
Definition late_settled_rounds : list Tick :=
  rounds_from 12 (repeat (sources_page 8) 6).

(** Sixty-one rounds, ten seconds apart, that all show the Deep Research
    report among 5 sources. *)
Definition marker_rounds : list Tick :=
  rounds_from 0 (repeat (marker_page 5) 61).

(** The candidates of strategy 1 for one selector: the texts collected by
    the body of its [try], none when the body raises. *)
Definition chat_candidates (page : Page) (sel : string) : list string :=
  match (elements <- query_selector_all page sel ;; chat_texts elements) with
  | Ret texts => texts
  | Raise _ => []
  end.


(** A page with a short answer under the first chat selector and a longer
    one under the second. *)
Definition short_answer : string := letters 101 "a".
Definition long_answer : string := letters 150 "b".
Definition two_answers_page : Page :=
  with_elements ".to-user-container .message-text-content"
    [shown short_answer]
    (with_elements "[data-message-author='bot']" [shown long_answer]
       (blank_page "NotebookLM")).

(** A page with two answers under one chat selector, the longer one last,
    and a fragment. *)
Definition one_selector_page : Page :=
  with_elements "[data-message-author='bot']"
    [shown "Thinking..."; shown short_answer; shown long_answer]
    (blank_page "NotebookLM").

(** A page on which only the sources panel matches, with a short text. *)
Definition short_panel_page : Page :=
  with_elements sources_panel_selector [shown "  3 sources "]
    (blank_page "NotebookLM").

(** The stages of the chain. When the text is empty at the end, each of
    the five strategies has run and has left it empty. *)
Definition exhausted (page : Page) (click : exc unit) (clicked_page : Page)
    (r : option string) : Prop :=
  exists r2 r3 r4,
    strategy1_chat page chat_selectors = Ret None
    /\ strategy2_report page DEEP_RESEARCH_REPORT_SELECTORS None = Ret r2
    /\ py_not r2 = true
    /\ strategy3_click click clicked_page r2 = Ret r3
    /\ py_not r3 = true
    /\ strategy4_sources clicked_page r3 = Ret r4
    /\ py_not r4 = true
    /\ strategy5_body clicked_page r4 = Ret r
    /\ py_not r = true.

(** A loop that ends by the fallback rule in its twelfth round, and a
    capture on [final]. *)
Definition quiet_world (final : Page) : World :=
  submitted_world (sources_page 5) (steady_rounds ++ [round_twelve])
    111000 final.

(** A page with 8 sources on which a spinner is visible. *)
Definition spinner_page : Page :=
  with_elements spinners_selector [shown ""] (sources_page 8).

(** Sixty-one rounds, ten seconds apart, all with the spinner; the last
    one starts at the deadline of the default timeout. *)
Definition busy_rounds : list Tick :=
  rounds_from 0 (repeat spinner_page 61).

Definition busy_world : World :=
  submitted_world (sources_page 5) busy_rounds 600200
    (blank_page "NotebookLM").

(** A world whose source list shrinks from 5 to 3 in the first round. *)
Definition shrinking_world : World :=
  submitted_world (sources_page 5)
    (rounds_from 0 (repeat (sources_page 3) 13)) 121000
    (blank_page "NotebookLM").

(** Case analysis on the outcome of a call. *)
Ltac case_call c :=
  let r := fresh "r" in
  let e := fresh "e" in
  let Hc := fresh "Hcall" in
  destruct c as [r | e] eqn:Hc; simpl.

(** A page whose source cards are the only report elements: two long
    cards, a hidden one and a short one between them. *)
Definition first_card : string := letters 60 "a".
Definition last_card : string := letters 70 "b".
Definition cards_page : Page :=
  with_elements ".source-card"
    [shown first_card; hidden_el (letters 80 "h"); shown "short";
     shown last_card]
    (blank_page "NotebookLM").

(** A page whose sources panel has a long text. *)
Definition panel_text : string := letters 64 "s".
Definition long_panel_page : Page :=
  with_elements sources_panel_selector [shown panel_text]
    (blank_page "NotebookLM").

(** An element that can be read without an exception: hidden, or visible
    with a text. *)
Definition reads_cleanly (el : Element) : Prop :=
  is_visible el = Ret false
  \/ (is_visible el = Ret true /\ exists raw, inner_text el = Ret raw).

(** What strategy 2 keeps of one element: its stripped text when it is
    visible and that text is longer than 50. *)
Definition report_piece (el : Element) : list string :=
  match is_visible el, inner_text el with
  | Ret true, Ret raw => if 50 <? len_str (strip raw) then [strip raw] else []
  | _, _ => []
  end.

(** The candidates of strategy 2 for one selector: the texts collected by
    the body of its [try], none when the body raises. *)
Definition report_candidates (page : Page) (sel : string) : list string :=
  match (elements <- query_selector_all page sel ;; report_texts elements)
  with
  | Ret texts => texts
  | Raise _ => []
  end.

(** An element that has left the page: every call on it raises. *)
Definition detached_el : Element :=
  mkElement (Raise "Element is not attached to the DOM")
            (Raise "Element is not attached to the DOM").

(** A page whose first chat selector matches a long answer and a detached
    element, and whose second one matches a shorter answer. *)
Definition flaky_answers_page : Page :=
  with_elements ".to-user-container .message-text-content"
    [shown long_answer; detached_el]
    (with_elements "[data-message-author='bot']" [shown short_answer]
       (blank_page "NotebookLM")).

(** ** [main] (lines 611-679) *)

(** An entry of the notebook library, with the two keys [main] reads. *)
Record Notebook : Type := mkNotebook {
  nb_url : string;
  nb_name : string;
}.

(** The two methods of [NotebookLibrary] that [main] calls; each gives an
    entry or [None]. The class itself is in [notebook_manager]. *)
Record NotebookLibrary : Type := mkNotebookLibrary {
  get_notebook : string -> option Notebook;
  get_active_notebook : option Notebook;
}.

(** The parsed arguments. [--timeout] has the configured default and
    [--mode] the default ["deep"], so both are always there. *)
Record Args : Type := mkArgs {
  args_topic : option string;
  args_notebook_url : option string;
  args_notebook_id : option string;
  args_mode : string;
  args_timeout : Z;
  args_discover : bool;
}.

(** Lines 626-646: the notebook URL, [None] where [main] returns 1. *)
Definition resolve_notebook_url (args : Args) (library : NotebookLibrary)
  : option string :=
  let notebook_url := args_notebook_url args in
  let looked_up :=
    if py_not notebook_url && negb (py_not (args_notebook_id args))
    then
      match args_notebook_id args with
      | Some id =>
          match get_notebook library id with
          | Some notebook => Some (Some (nb_url notebook))
          | None => None
          end
      | None => None
      end
    else Some notebook_url in
  match looked_up with
  | None => None
  | Some notebook_url =>
      if py_not notebook_url
      then
        match get_active_notebook library with
        | Some active => Some (nb_url active)
        | None => None
        end
      else notebook_url
  end.

(** [main]. [world] gives, for a topic, a notebook URL and a mode, what
    the call of [run_deep_research] with them meets. [discover_ui] prints
    and then waits for the interrupt; it returns [None] on each of its
    paths, and [main] goes on to return 0. The result is the exit code, a
    [Raise] where the lookup of a missing key would end [main], and
    [None] where the observed rounds end before the loop does. *)
Definition main (args : Args) (library : NotebookLibrary)
    (world : string -> string -> string -> World) : option (exc Z) :=
  match resolve_notebook_url args library with
  | None => Some (Ret 1)
  | Some notebook_url =>
      if args_discover args then Some (Ret 0)
      else if py_not (args_topic args) then Some (Ret 1)
      else
        match args_topic args with
        | None => Some (Ret 1)
        | Some topic =>
            match run_deep_research (world topic notebook_url (args_mode args))
                    (Some (args_timeout args)) with
            | None => None
            | Some result =>
                if success result
                then match report result with
                     | Some _ => Some (Ret 0)
                     | None => Some (Raise "KeyError: 'report'")
                     end
                else Some (Ret 1)
            end
        end
  end.

(** A library with one notebook, which is also the active one. *)
Definition one_notebook : Notebook :=
  mkNotebook "https://notebooklm.google.com/notebook/abc" "Research".
Definition small_library : NotebookLibrary :=
  mkNotebookLibrary
    (fun id => if String.eqb id "abc" then Some one_notebook else None)
    (Some one_notebook).

(** A library whose entry for ["old"] has an empty URL. *)
Definition stale_library : NotebookLibrary :=
  mkNotebookLibrary
    (fun id => if String.eqb id "old" then Some (mkNotebook "" "Old")
               else None)
    (Some one_notebook).

Definition research_args (url id : option string) : Args :=
  mkArgs (Some "solid state batteries") url id "deep" 600 false.

(** ** Steps 3 and 6 of [run_deep_research] *)

Definition DEEP_RESEARCH_INPUT_SELECTORS : list string :=
  [ "input[placeholder*=" ++ quoted "Search the web" ++ "]";
    "input[placeholder*=" ++ quoted "search" ++ " i]";
    "textarea[placeholder*=" ++ quoted "Search the web" ++ "]";
    "[aria-label*=" ++ quoted "search" ++ " i][aria-label*="
    ++ quoted "source" ++ " i]" ].

Definition DEEP_RESEARCH_SUBMIT_SELECTORS : list string :=
  [ "button[aria-label*=" ++ quoted "submit" ++ " i]";
    "button[aria-label*=" ++ quoted "search" ++ " i]";
    "button[aria-label*=" ++ quoted "send" ++ " i]";
    "button[type=" ++ quoted "submit" ++ "]" ].

(** Lines 256-262. *)
Definition modal_search_selectors : list string :=
  [ "dialog input[placeholder*=" ++ quoted "Search the web" ++ "]";
    "[role=" ++ quoted "dialog" ++ "] input[placeholder*="
    ++ quoted "Search the web" ++ "]";
    ".modal input[placeholder*=" ++ quoted "Search the web" ++ "]";
    class_has "modal" ++ " input[placeholder*="
    ++ quoted "Search the web" ++ "]";
    class_has "dialog" ++ " input[placeholder*="
    ++ quoted "Search the web" ++ "]" ].

(** The arrow of the last submit selector, as its three UTF-8 bytes. *)
Definition arrow : string :=
  String "226"%char (String "134"%char (String "146"%char EmptyString)).

(** Lines 356-359. *)
Definition arrow_selectors : list string :=
  [ "button[aria-label*=" ++ quoted "arrow" ++ " i]";
    "button:has-text(" ++ quoted arrow ++ ")" ].
Definition submit_selectors : list string :=
  (DEEP_RESEARCH_SUBMIT_SELECTORS ++ arrow_selectors)%list.

(** [str.lower] on the characters below 256: the capital letters, and the
    accented capitals from 192 to 222 except the sign at 215, move up by
    32. *)
Definition lower_char (c : ascii) : ascii :=
  let n := nat_of_ascii c in
  if (((65 <=? n) && (n <=? 90))
      || ((192 <=? n) && (n <=? 222) && negb (n =? 215)))%nat
  then ascii_of_nat (n + 32)
  else c.

Fixpoint lower (s : string) : string :=
  match s with
  | EmptyString => EmptyString
  | String c rest => String (lower_char c) (lower rest)
  end.

(** [needle in hay]. *)
Fixpoint contains (needle hay : string) : bool :=
  String.prefix needle hay
  || match hay with
     | EmptyString => false
     | String _ rest => contains needle rest
     end.

(** An [input] or [textarea] handle of the scan of line 272: the handle
    and what [get_attribute("placeholder")] gives. *)
Record InputHandle : Type := mkInputHandle {
  input_element : Element;
  get_placeholder : exc (option string);
}.

(** [x or ""] for an attribute value. *)
Definition or_empty (value : option string) : string :=
  match value with
  | Some (String c rest) => String c rest
  | _ => EmptyString
  end.

(** Line 276. *)
Definition search_placeholder (placeholder : string) : bool :=
  contains "search" (lower placeholder) && contains "web" (lower placeholder).

(** Lines 272-282: the first visible input whose placeholder names a web
    search, with the selector made from the placeholder. *)
Fixpoint scan_inputs (inputs : list InputHandle)
  : exc (option (Element * string)) :=
  match inputs with
  | [] => Ret None
  | inp :: rest =>
      got <- try_except
               (visible <- is_visible (input_element inp) ;;
                if visible
                then
                  value <- get_placeholder inp ;;
                  let placeholder := or_empty value in
                  if search_placeholder placeholder
                  then Ret (Some (input_element inp,
                                  "input[placeholder=" ++ quoted placeholder
                                  ++ "]"))
                  else Ret None
                else Ret None)
               (Ret None) ;;
      match got with
      | Some found => Ret (Some found)
      | None => scan_inputs rest
      end
  end.

(** Step 3, lines 252-282: the search input and its selector. [inputs] is
    what [page.query_selector_all("input, textarea")] gives, a call that
    no [try] of the step encloses. *)
Definition locate_search_input (page : Page)
    (inputs : exc (list InputHandle))
  : exc (option Element * option string) :=
  r <- find_element page modal_search_selectors "modal search input" 5000 ;;
  let '(search_input, search_sel) := r in
  r <- match search_input with
       | None => find_element page DEEP_RESEARCH_INPUT_SELECTORS
                   "search input" 10000
       | Some _ => Ret (search_input, search_sel)
       end ;;
  let '(search_input, search_sel) := r in
  match search_input with
  | Some _ => Ret (search_input, search_sel)
  | None =>
      handles <- inputs ;;
      found <- scan_inputs handles ;;
      match found with
      | Some (inp, sel) => Ret (Some inp, Some sel)
      | None => Ret (search_input, search_sel)
      end
  end.

(** The [for btn in btns] loop of lines 364-368. *)
Fixpoint first_visible (btns : list Element) : exc (option Element) :=
  match btns with
  | [] => Ret None
  | btn :: rest =>
      visible <- is_visible btn ;;
      if visible then Ret (Some btn) else first_visible rest
  end.

(** Step 6, lines 355-372: the submit button, if one is found. *)
Fixpoint find_submit (page : Page) (sels : list string)
  : exc (option Element) :=
  match sels with
  | [] => Ret None
  | sel :: rest =>
      got <- try_except
               (btns <- query_selector_all page sel ;;
                first_visible btns)
               (Ret None) ;;
      match got with
      | Some submit_btn => Ret (Some submit_btn)
      | None => find_submit page rest
      end
  end.

(** Lines 374-379: what the step does with what it found. *)
Inductive SubmitAction : Type :=
| ClickButton (submit_btn : Element)
| PressEnter.

Definition submit_action (page : Page) : exc SubmitAction :=
  found <- find_submit page submit_selectors ;;
  match found with
  | Some submit_btn => Ret (ClickButton submit_btn)
  | None => Ret PressEnter
  end.

(** The scan of one selector reaches [btn]: it is the first visible
    button of the selector, and the ones before it are seen hidden. *)
Definition reaches (page : Page) (sel : string) (btn : Element) : Prop :=
  exists before after,
    query_selector_all page sel = Ret (before ++ btn :: after)%list
    /\ (forall b, In b before -> is_visible b = Ret false)
    /\ is_visible btn = Ret true.

(** An input that the scan of step 3 accepts, with its placeholder. *)
Definition accepted (inp : InputHandle) (placeholder : string) : Prop :=
  is_visible (input_element inp) = Ret true
  /\ (exists value, get_placeholder inp = Ret value
                    /\ placeholder = or_empty value)
  /\ search_placeholder placeholder = true.

(** Sample inputs: a hidden search box, a visible box of another kind, a
    textarea for the web search, and one that has left the page. *)
Definition web_search_box : InputHandle :=
  mkInputHandle (shown "") (Ret (Some "Search the Web for new sources")).
Definition sample_inputs : list InputHandle :=
  [ mkInputHandle (hidden_el "") (Ret (Some "Search the web"));
    mkInputHandle detached_el (Ret None);
    mkInputHandle (shown "") (Ret (Some "Notebook title"));
    web_search_box;
    mkInputHandle (shown "") (Ret (Some "search the web again")) ].

(** A page with a hidden send button, then a visible one, and a visible
    submit-type button. *)
Definition send_button : Element := shown "Send".
Definition submit_page : Page :=
  with_elements ("button[aria-label*=" ++ quoted "send" ++ " i]")
    [hidden_el "Send"; send_button; shown "Send again"]
    (with_elements ("button[type=" ++ quoted "submit" ++ "]")
       [shown "Go"]
       (blank_page "NotebookLM")).

(** What strategy 1 keeps of one element: its stripped text when it is
    visible and that text is longer than 100. *)
Definition chat_piece (el : Element) : list string :=
  match is_visible el, inner_text el with
  | Ret true, Ret raw => if 100 <? len_str (strip raw) then [strip raw] else []
  | _, _ => []
  end.

(** A page with two answers of the same length under one chat selector,
    after a shorter one. *)
Definition first_tied_answer : string := letters 150 "a".
Definition second_tied_answer : string := letters 150 "b".
Definition tied_answers_page : Page :=
  with_elements "[data-message-author='bot']"
    [shown short_answer; shown first_tied_answer; shown second_tied_answer]
    (blank_page "NotebookLM").


(** The loop of a call ends within the rounds that were observed. *)
Definition loop_ends (w : World) (timeout : Z) : Prop :=
  forall elements exit st,
    query_selector_all (start_page w) initial_sources_selector
    = Ret elements ->
    poll_loop (len elements) (start_time w) (start_time w + 1000 * timeout)
      (initial_state (len elements)) (ticks w)
    = Ret (exit, st) ->
    exit <> Unfinished.

(** * Properties *)

(** ** Exceptions and handlers *)

Lemma try_except_returns {A : Type} (body : exc A) (a : A) :
  exists r, try_except body (Ret a) = Ret r.
Proof. destruct body as [r | e]; simpl; eauto. Qed.

Lemma len_cons {A : Type} (x : A) (l : list A) : len (x :: l) = len l + 1.
Proof. unfold len; simpl List.length; lia. Qed.

(** ** Locator resolver *)

Section Resolver.

Variables (page : Page) (description : string) (timeout : Z).

Lemma find_element_skip (sel : string) (rest : list string) :
  (forall e, ~ resolves_waiting page timeout sel e) ->
  find_element page (sel :: rest) description timeout
  = find_element page rest description timeout.
Proof.
  unfold resolves_waiting; intros Hno; simpl.
  case_call (wait_for_selector page sel timeout); [| reflexivity].
  destruct r as [e |]; simpl; [| reflexivity].
  exfalso; apply (Hno e); congruence.
Qed.

Lemma find_element_hit (sel : string) (rest : list string) (e : Element) :
  resolves_waiting page timeout sel e ->
  find_element page (sel :: rest) description timeout
  = Ret (Some e, Some sel).
Proof. unfold resolves_waiting; intros H; simpl; rewrite H; reflexivity. Qed.

Lemma find_element_quick_skip (sel : string) (rest : list string) :
  (forall e, ~ resolves_now page sel e) ->
  find_element_quick page (sel :: rest) description
  = find_element_quick page rest description.
Proof.
  unfold resolves_now; intros Hno; simpl.
  case_call (query_selector page sel); [| reflexivity].
  destruct r as [el |]; simpl; [| reflexivity].
  case_call (is_visible el); [| reflexivity].
  destruct r; simpl; [| reflexivity].
  exfalso; apply (Hno el); split; congruence.
Qed.

Lemma find_element_quick_hit (sel : string) (rest : list string)
    (e : Element) :
  resolves_now page sel e ->
  find_element_quick page (sel :: rest) description
  = Ret (Some e, Some sel).
Proof.
  unfold resolves_now; intros [Hq Hv]; simpl.
  rewrite Hq; simpl; rewrite Hv; reflexivity.
Qed.

Lemma find_element_first (before : list string) (sel : string)
    (after : list string) (e : Element) :
  (forall s, In s before -> forall e', ~ resolves_waiting page timeout s e') ->
  resolves_waiting page timeout sel e ->
  find_element page (before ++ sel :: after) description timeout
  = Ret (Some e, Some sel).
Proof.
  induction before as [| s before IH]; intros Hbefore Hsel.
  - apply find_element_hit; assumption.
  - rewrite <- app_comm_cons.
    rewrite find_element_skip by (apply Hbefore; left; reflexivity).
    apply IH; [| assumption].
    intros s' Hin; apply Hbefore; right; assumption.
Qed.

Lemma find_element_none (selectors : list string) :
  (forall s, In s selectors -> forall e, ~ resolves_waiting page timeout s e) ->
  find_element page selectors description timeout = Ret NotFound.
Proof.
  induction selectors as [| s selectors IH]; intros Hno; [reflexivity |].
  rewrite find_element_skip by (apply Hno; left; reflexivity).
  apply IH; intros s' Hin; apply Hno; right; assumption.
Qed.

Lemma find_element_quick_first (before : list string) (sel : string)
    (after : list string) (e : Element) :
  (forall s, In s before -> forall e', ~ resolves_now page s e') ->
  resolves_now page sel e ->
  find_element_quick page (before ++ sel :: after) description
  = Ret (Some e, Some sel).
Proof.
  induction before as [| s before IH]; intros Hbefore Hsel.
  - apply find_element_quick_hit; assumption.
  - rewrite <- app_comm_cons.
    rewrite find_element_quick_skip by (apply Hbefore; left; reflexivity).
    apply IH; [| assumption].
    intros s' Hin; apply Hbefore; right; assumption.
Qed.

Lemma find_element_quick_none (selectors : list string) :
  (forall s, In s selectors -> forall e, ~ resolves_now page s e) ->
  find_element_quick page selectors description = Ret NotFound.
Proof.
  induction selectors as [| s selectors IH]; intros Hno; [reflexivity |].
  rewrite find_element_quick_skip by (apply Hno; left; reflexivity).
  apply IH; intros s' Hin; apply Hno; right; assumption.
Qed.

End Resolver.

(** C6. For a candidate list in which some selector resolves to a visible
    element, [find_element] and [find_element_quick] return the element and
    the selector of the earliest one in list order; for a list in which no
    selector resolves, they return [(None, None)] and do not raise. *)
Theorem resolver_first_match_or_NotFound :
  forall (page : Page) (description : string) (timeout : Z)
         (selectors : list string),
    (forall before sel after e,
        selectors = (before ++ sel :: after)%list ->
        (forall s, In s before ->
                   forall e', ~ resolves_waiting page timeout s e') ->
        resolves_waiting page timeout sel e ->
        find_element page selectors description timeout
        = Ret (Some e, Some sel))
    /\ ((forall s, In s selectors ->
                   forall e, ~ resolves_waiting page timeout s e) ->
        find_element page selectors description timeout = Ret (None, None))
    /\ (forall before sel after e,
        selectors = (before ++ sel :: after)%list ->
        (forall s, In s before -> forall e', ~ resolves_now page s e') ->
        resolves_now page sel e ->
        find_element_quick page selectors description
        = Ret (Some e, Some sel))
    /\ ((forall s, In s selectors -> forall e, ~ resolves_now page s e) ->
        find_element_quick page selectors description = Ret (None, None)).
Proof.
  intros page description timeout selectors.
  split; [| split; [| split]].
  - intros before sel after e -> Hbefore Hsel.
    apply find_element_first; assumption.
  - apply find_element_none.
  - intros before sel after e -> Hbefore Hsel.
    apply find_element_quick_first; assumption.
  - apply find_element_quick_none.
Qed.

Lemma resolver_first_match_or_NotFound_witness :
  find_element candidates_page candidates "mode toggle" 10000
  = Ret (Some second_button, Some "#primary")
  /\ find_element (blank_page "") candidates "mode toggle" 10000
     = Ret (None, None)
  /\ find_element_quick candidates_page candidates "mode toggle"
     = Ret (Some second_button, Some "#primary")
  /\ find_element_quick (blank_page "") candidates "mode toggle"
     = Ret (None, None).
Proof.
  destruct (resolver_first_match_or_NotFound candidates_page "mode toggle"
              10000 candidates) as [Hw [_ [Hq _]]].
  destruct (resolver_first_match_or_NotFound (blank_page "") "mode toggle"
              10000 candidates) as [_ [Hwn [_ Hqn]]].
  split; [| split; [| split]].
  - apply (Hw ["#legacy"] "#primary" ["#locale"] second_button).
    + reflexivity.
    + intros s [<- | []] e' H; vm_compute in H; discriminate.
    + reflexivity.
  - apply Hwn.
    intros s Hin e H; unfold resolves_waiting in H; simpl in H; discriminate.
  - apply (Hq ["#legacy"] "#primary" ["#locale"] second_button).
    + reflexivity.
    + intros s [<- | []] e' [Hq' Hv]; vm_compute in Hq'.
      injection Hq' as <-; vm_compute in Hv; discriminate.
    + split; reflexivity.
  - apply Hqn.
    intros s Hin e [H _]; simpl in H; discriminate.
Defined.

(** ** One round of the loop *)

Section Round.

Variable page : Page.

Lemma sample_sources_returns (st : LoopState) :
  exists st', sample_sources page st = Ret st'.
Proof. apply try_except_returns. Qed.


Lemma sample_sources_count (st : LoopState) (n : Z) :
  sees_count page n ->
  sample_sources page st = Ret (counted st n).
Proof.
  intros [els [Hq <-]]; unfold sample_sources, counted; rewrite Hq; simpl.
  destruct (negb (len els =? last_sources_count st)); reflexivity.
Qed.

Lemma loading_indicator_returns (sels : list string) :
  exists b, loading_indicator page sels = Ret b.
Proof.
  induction sels as [| sel rest [b IH]]; simpl; [eauto |].
  destruct (try_except_returns
              (loader <- query_selector page sel ;;
               match loader with
               | None => Ret false
               | Some l => is_visible l
               end) false) as [hit ->]; simpl.
  destruct hit; eauto.
Qed.


Lemma loading_indicator_quiet (sels : list string) :
  (forall sel l, In sel sels ->
                 ~ (query_selector page sel = Ret (Some l)
                    /\ is_visible l = Ret true)) ->
  loading_indicator page sels = Ret false.
Proof.
  induction sels as [| sel rest IH]; intros Hno; [reflexivity |].
  simpl.
  case_call (query_selector page sel).
  - destruct r as [l |]; simpl.
    + case_call (is_visible l).
      * destruct r.
        -- exfalso; apply (Hno sel l); [left; reflexivity |].
           split; congruence.
        -- apply IH; intros s l' Hin; apply Hno; right; assumption.
      * apply IH; intros s l' Hin; apply Hno; right; assumption.
    + apply IH; intros s l' Hin; apply Hno; right; assumption.
  - apply IH; intros s l' Hin; apply Hno; right; assumption.
Qed.

Lemma loading_indicator_hit (sels : list string) (sel : string)
    (l : Element) :
  In sel sels ->
  query_selector page sel = Ret (Some l) ->
  is_visible l = Ret true ->
  loading_indicator page sels = Ret true.
Proof.
  induction sels as [| s rest IH]; intros Hin Hq Hv; [destruct Hin |].
  destruct (loading_indicator_returns rest) as [b Hb].
  destruct Hin as [-> | Hin].
  - simpl; rewrite Hq; simpl; rewrite Hv; reflexivity.
  - specialize (IH Hin Hq Hv); simpl.
    destruct (try_except_returns
                (loader <- query_selector page s ;;
                 match loader with
                 | None => Ret false
                 | Some l => is_visible l
                 end) false) as [hit ->]; simpl.
    destruct hit; [reflexivity | assumption].
Qed.

Lemma spinner_check_returns (is_loading : bool) :
  exists b, spinner_check page is_loading = Ret b.
Proof.
  unfold spinner_check; destruct (negb is_loading); [| eauto].
  apply try_except_returns.
Qed.

Lemma spinner_check_quiet :
  ~ (exists spinners,
        query_selector_all page spinners_selector = Ret spinners
        /\ any_visible spinners = Ret true) ->
  spinner_check page false = Ret false.
Proof.
  intros Hno; unfold spinner_check; simpl.
  case_call (query_selector_all page spinners_selector); [| reflexivity].
  case_call (any_visible r); [| reflexivity].
  destruct r0; [| reflexivity].
  exfalso; apply Hno; exists r; split; congruence.
Qed.

Lemma spinner_check_hit (spinners : list Element) (is_loading : bool) :
  query_selector_all page spinners_selector = Ret spinners ->
  any_visible spinners = Ret true ->
  spinner_check page is_loading = Ret true.
Proof.
  intros Hq Hv; unfold spinner_check; destruct is_loading; simpl;
    [reflexivity |].
  rewrite Hq; simpl; rewrite Hv; reflexivity.
Qed.

Lemma report_source_check_returns (is_loading : bool) (st : LoopState) :
  exists r, report_source_check page is_loading st = Ret r.
Proof. apply try_except_returns. Qed.

Lemma report_source_check_marker (is_loading : bool) (st : LoopState) :
  marker_visible page ->
  report_source_check page is_loading st = Ret (false, forced st).
Proof.
  intros [rs [Hq Hv]]; unfold report_source_check; rewrite Hq; simpl.
  destruct rs as [| r rs]; [simpl in Hv; discriminate |].
  rewrite Hv; reflexivity.
Qed.

Lemma report_source_check_no_marker (is_loading : bool) (st : LoopState) :
  ~ marker_visible page ->
  report_source_check page is_loading st = Ret (is_loading, st).
Proof.
  intros Hno; unfold report_source_check.
  case_call (query_selector_all page report_sources_selector);
    [| reflexivity].
  destruct r as [| r rs]; [reflexivity |].
  case_call (any_visible (r :: rs)); [| reflexivity].
  destruct r0; [| reflexivity].
  exfalso; apply Hno; exists (r :: rs); split; congruence.
Qed.

Lemma not_busy_is_loading :
  ~ busy page ->
  loading_indicator page DEEP_RESEARCH_LOADING_SELECTORS = Ret false
  /\ spinner_check page false = Ret false.
Proof.
  intros Hno; split.
  - apply loading_indicator_quiet; intros sel l Hin [Hq Hv].
    apply Hno; left; exists sel, l; auto.
  - apply spinner_check_quiet; intros Hs; apply Hno; right; assumption.
Qed.

Lemma busy_is_loading :
  busy page ->
  exists l,
    loading_indicator page DEEP_RESEARCH_LOADING_SELECTORS = Ret l
    /\ spinner_check page l = Ret true.
Proof.
  intros [[sel [l [Hin [Hq Hv]]]] | [spinners [Hq Hv]]].
  - exists true; split; [| reflexivity].
    eapply loading_indicator_hit; eassumption.
  - destruct (loading_indicator_returns DEEP_RESEARCH_LOADING_SELECTORS)
      as [l Hl].
    exists l; split; [exact Hl |].
    eapply spinner_check_hit; eassumption.
Qed.

End Round.

Section Loop.

Variables (initial_source_count start_time deadline : Z).

(** A round always returns, and it ends the loop exactly when one of the
    two completion rules holds for the values it has computed. *)
Lemma poll_tick_decides (st : LoopState) (tk : Tick) :
  exists st' is_loading,
    poll_tick initial_source_count start_time st tk
    = Ret (st', primary_rule st' is_loading initial_source_count
                || fallback_rule st' is_loading (elapsed_at start_time tk)).
Proof.
  unfold poll_tick.
  destruct (sample_sources_returns (tick_page tk) (bump st)) as [st1 H1].
  unfold bump in H1; rewrite H1; cbn [bind].
  destruct (loading_indicator_returns (tick_page tk)
              DEEP_RESEARCH_LOADING_SELECTORS) as [l1 H2].
  rewrite H2; cbn [bind].
  destruct (spinner_check_returns (tick_page tk) l1) as [l2 H3].
  rewrite H3; cbn [bind].
  destruct (report_source_check_returns (tick_page tk) l2 st1)
    as [[l3 st2] H4].
  rewrite H4; cbn [bind].
  exists st2, l3; unfold elapsed_at.
  destruct (primary_rule st2 l3 initial_source_count); simpl;
    [reflexivity |].
  destruct (fallback_rule st2 l3
              (int_seconds (now_elapsed tk) start_time)); reflexivity.
Qed.

Lemma poll_tick_quiet (st : LoopState) (tk : Tick) (n : Z) :
  quiet (tick_page tk) n ->
  let st' := counted (bump st) n in
  poll_tick initial_source_count start_time st tk
  = Ret (st', primary_rule st' false initial_source_count
              || fallback_rule st' false (elapsed_at start_time tk)).
Proof.
  intros [Hcount [Hbusy Hmarker]] st'; unfold poll_tick.
  pose proof (sample_sources_count _ (bump st) _ Hcount) as H1.
  unfold bump in H1; rewrite H1; cbn [bind].
  destruct (not_busy_is_loading _ Hbusy) as [H2 H3].
  rewrite H2; simpl; rewrite H3; cbn [bind].
  rewrite (report_source_check_no_marker _ false _ Hmarker); cbn [bind].
  fold (bump st); fold st'; unfold elapsed_at.
  destruct (primary_rule st' false initial_source_count); simpl;
    [reflexivity |].
  destruct (fallback_rule st' false
              (int_seconds (now_elapsed tk) start_time)); reflexivity.
Qed.

(** A round in which the report source is visible: the stability counter
    is 10 afterwards, and the loop ends exactly when the count is above
    the baseline. *)
Lemma poll_tick_marker (st : LoopState) (tk : Tick) :
  marker_visible (tick_page tk) ->
  exists st',
    poll_tick initial_source_count start_time st tk
    = Ret (st', 0 <? last_sources_count st' - initial_source_count)
    /\ stable_count st' = 10.
Proof.
  intros Hmarker; unfold poll_tick.
  destruct (sample_sources_returns (tick_page tk) (bump st)) as [st1 H1].
  unfold bump in H1; rewrite H1; cbn [bind].
  destruct (loading_indicator_returns (tick_page tk)
              DEEP_RESEARCH_LOADING_SELECTORS) as [l1 H2].
  rewrite H2; cbn [bind].
  destruct (spinner_check_returns (tick_page tk) l1) as [l2 H3].
  rewrite H3; cbn [bind].
  rewrite (report_source_check_marker _ l2 st1 Hmarker); cbn [bind].
  exists (forced st1); split; [| reflexivity].
  unfold primary_rule, fallback_rule; simpl.
  destruct (0 <? last_sources_count st1 - initial_source_count);
    reflexivity.
Qed.

Lemma poll_loop_returns (ticks : list Tick) :
  forall st, exists exit st', poll_loop initial_source_count start_time deadline st ticks = Ret (exit, st').
Proof.
  induction ticks as [| tk rest IH]; intros st; simpl; [eauto |].
  destruct (now_cond tk <? deadline); [| eauto].
  destruct (poll_tick_decides st tk) as [st' [l ->]]; simpl.
  destruct (primary_rule st' l initial_source_count
            || fallback_rule st' l (elapsed_at start_time tk)); eauto.
Qed.

Lemma poll_loop_round (st : LoopState) (tk : Tick) (rest : list Tick)
    (st' : LoopState) (stop : bool) :
  now_cond tk < deadline ->
  poll_tick initial_source_count start_time st tk = Ret (st', stop) ->
  poll_loop initial_source_count start_time deadline st (tk :: rest)
  = if stop then Ret (Break, st') else poll_loop initial_source_count start_time deadline st' rest.
Proof.
  intros Hd Ht; simpl.
  apply Z.ltb_lt in Hd; rewrite Hd, Ht; reflexivity.
Qed.

Lemma rules_silent_continue (last stable elapsed c : Z) :
  rules_silent initial_source_count last stable elapsed ->
  primary_rule (mkLoopState last stable c) false initial_source_count
  || fallback_rule (mkLoopState last stable c) false elapsed = false.
Proof.
  intros [Hp Hf]; unfold primary_rule, fallback_rule; simpl.
  apply Bool.orb_false_iff; split.
  - destruct (5 <=? stable) eqn:H5; simpl; [| reflexivity].
    destruct (0 <? last - initial_source_count) eqn:H0; [| reflexivity].
    exfalso; apply Hp; split; [apply Z.leb_le | apply Z.ltb_lt]; assumption.
  - destruct (12 <=? stable) eqn:H12; simpl; [| reflexivity].
    destruct (60 <? elapsed) eqn:H60; [| reflexivity].
    exfalso; apply Hf; split; [apply Z.leb_le | apply Z.ltb_lt]; assumption.
Qed.

Lemma counted_same (st : LoopState) :
  counted (bump st) (last_sources_count st)
  = mkLoopState (last_sources_count st) (stable_count st + 1)
      (check_num st + 1).
Proof. unfold counted, bump; simpl; rewrite Z.eqb_refl; reflexivity. Qed.

Lemma counted_changed (st : LoopState) (n : Z) :
  n <> last_sources_count st ->
  counted (bump st) n = mkLoopState n 0 (check_num st + 1).
Proof.
  intros Hn; unfold counted, bump; simpl.
  apply Z.eqb_neq in Hn; rewrite Hn; reflexivity.
Qed.

(** A run of rounds that see the last count again, with nothing loading,
    no marker and no rule satisfied: the loop goes through all of them. *)
Lemma quiet_run (before : list Tick) :
  forall (st : LoopState) (more : list Tick),
    (forall k tk,
        nth_error before k = Some tk ->
        now_cond tk < deadline
        /\ quiet (tick_page tk) (last_sources_count st)
        /\ rules_silent initial_source_count (last_sources_count st)
             (stable_count st + Z.of_nat k + 1) (elapsed_at start_time tk)) ->
    poll_loop initial_source_count start_time deadline st (before ++ more)
    = poll_loop initial_source_count start_time deadline
        (mkLoopState (last_sources_count st) (stable_count st + len before)
           (check_num st + len before))
        more.
Proof.
  induction before as [| tk before IH]; intros st more H.
  - destruct st as [l s c]; unfold len; simpl; rewrite !Z.add_0_r.
    reflexivity.
  - destruct (H O tk eq_refl) as [Hd [Hq Hs]].
    rewrite <- app_comm_cons.
    rewrite (poll_loop_round _ _ _ _ _ Hd (poll_tick_quiet st tk _ Hq)).
    rewrite counted_same.
    simpl Z.of_nat in Hs; rewrite Z.add_0_r in Hs.
    rewrite (rules_silent_continue _ _ _ _ Hs).
    rewrite IH; simpl.
    + f_equal; rewrite len_cons; f_equal; lia.
    + intros k tk' Hk; destruct (H (S k) tk' Hk) as [Hd' [Hq' Hs']].
      split; [assumption | split; [assumption |]].
      replace (stable_count st + 1 + Z.of_nat k + 1)
        with (stable_count st + Z.of_nat (S k) + 1) by lia.
      assumption.
Qed.

End Loop.

(** ** Runs of the loop *)

Lemma nth_error_firstn_some {A : Type} (l : list A) :
  forall (j k : nat) (x : A),
    nth_error (firstn j l) k = Some x -> nth_error l k = Some x.
Proof.
  induction l as [| a l IH]; intros j k x H.
  - rewrite firstn_nil in H; destruct k; discriminate.
  - destruct j as [| j]; [destruct k; discriminate |].
    destruct k as [| k]; simpl in *; [assumption | eauto].
Qed.

Lemma firstn_within {A : Type} (j : nat) (l more : list A) :
  (j <= List.length l)%nat -> firstn j (l ++ more) = firstn j l.
Proof.
  intros Hj; rewrite firstn_app.
  replace (j - List.length l)%nat with O by lia.
  simpl; apply app_nil_r.
Qed.

Section Runs.

Variables (initial_source_count start_time deadline : Z).

(** A loop that is still running after some rounds was still running
    after fewer of them. *)
Lemma poll_loop_prefix_unfinished (ticks : list Tick) :
  forall (st st' : LoopState) (j : nat),
    poll_loop initial_source_count start_time deadline st ticks
    = Ret (Unfinished, st') ->
    exists st'',
      poll_loop initial_source_count start_time deadline st (firstn j ticks)
      = Ret (Unfinished, st'').
Proof.
  induction ticks as [| tk rest IH]; intros st st' j H.
  - rewrite firstn_nil; simpl; eauto.
  - destruct j as [| j]; [simpl; eauto |].
    simpl in H |- *.
    destruct (now_cond tk <? deadline); [| discriminate].
    destruct (poll_tick_decides initial_source_count start_time st tk)
      as [st1 [l Ht]].
    rewrite Ht in H |- *; cbn [bind] in H |- *.
    destruct (primary_rule st1 l initial_source_count
              || fallback_rule st1 l (elapsed_at start_time tk));
      [discriminate |].
    eapply IH; eassumption.
Qed.

(** Rounds that all see the baseline count, with nothing loading and no
    marker, none of them late enough for the fallback rule. *)
Lemma baseline_run (before more : list Tick) :
  (forall k tk, nth_error before k = Some tk ->
                now_cond tk < deadline
                /\ quiet (tick_page tk) initial_source_count
                /\ ~ (12 <= Z.of_nat k + 1
                      /\ 60 < elapsed_at start_time tk)) ->
  poll_loop initial_source_count start_time deadline
    (initial_state initial_source_count) (before ++ more)
  = poll_loop initial_source_count start_time deadline
      (mkLoopState initial_source_count (len before) (len before)) more.
Proof.
  intros H.
  rewrite quiet_run; [reflexivity |].
  intros k tk Hk; simpl.
  destruct (H k tk Hk) as [Hd [Hquiet Hf]].
  split; [assumption | split; [assumption |]].
  split; [lia |].
  replace (0 + Z.of_nat k + 1) with (Z.of_nat k + 1) by lia.
  assumption.
Qed.

(** After [j] of those rounds the loop is still running, with a stability
    counter of [j]. *)
Lemma baseline_prefix (before more : list Tick) (j : nat) :
  (forall k tk, nth_error before k = Some tk ->
                now_cond tk < deadline
                /\ quiet (tick_page tk) initial_source_count
                /\ ~ (12 <= Z.of_nat k + 1
                      /\ 60 < elapsed_at start_time tk)) ->
  (j <= List.length before)%nat ->
  poll_loop initial_source_count start_time deadline
    (initial_state initial_source_count) (firstn j (before ++ more))
  = Ret (Unfinished,
         mkLoopState initial_source_count (Z.of_nat j) (Z.of_nat j)).
Proof.
  intros H Hj.
  rewrite (firstn_within _ _ _ Hj), <- (app_nil_r (firstn j before)).
  rewrite baseline_run.
  - unfold len; rewrite (firstn_length_le _ Hj); reflexivity.
  - intros k tk Hk; apply H; eapply nth_error_firstn_some; eassumption.
Qed.

(** The round in which the fallback rule holds. *)
Lemma fallback_round (tk : Tick) (rest : list Tick) (stable c : Z) :
  now_cond tk < deadline ->
  quiet (tick_page tk) initial_source_count ->
  12 <= stable + 1 ->
  60 < elapsed_at start_time tk ->
  poll_loop initial_source_count start_time deadline
    (mkLoopState initial_source_count stable c) (tk :: rest)
  = Ret (Break, mkLoopState initial_source_count (stable + 1) (c + 1)).
Proof.
  intros Hd Hq H12 H60.
  rewrite (poll_loop_round _ _ _ _ _ _ _ _ Hd
             (poll_tick_quiet _ _ _ tk _ Hq)).
  rewrite counted_same; simpl.
  unfold primary_rule, fallback_rule; simpl.
  apply Z.leb_le in H12; apply Z.ltb_lt in H60; rewrite H12, H60.
  rewrite Bool.orb_true_r; reflexivity.
Qed.

(** The round in which the count changes to [n]. *)
Lemma change_round_resets (tk : Tick) (rest : list Tick) (st : LoopState)
    (n : Z) :
  now_cond tk < deadline ->
  quiet (tick_page tk) n ->
  n <> last_sources_count st ->
  poll_loop initial_source_count start_time deadline st (tk :: rest)
  = poll_loop initial_source_count start_time deadline
      (mkLoopState n 0 (check_num st + 1)) rest.
Proof.
  intros Hd Hq Hn.
  rewrite (poll_loop_round _ _ _ _ _ _ _ _ Hd
             (poll_tick_quiet _ _ _ tk _ Hq)).
  rewrite (counted_changed _ _ Hn).
  unfold primary_rule, fallback_rule; simpl; reflexivity.
Qed.

(** The round in which the primary rule holds. *)
Lemma primary_round (tk : Tick) (rest : list Tick) (n stable c : Z) :
  now_cond tk < deadline ->
  quiet (tick_page tk) n ->
  5 <= stable + 1 ->
  initial_source_count < n ->
  poll_loop initial_source_count start_time deadline
    (mkLoopState n stable c) (tk :: rest)
  = Ret (Break, mkLoopState n (stable + 1) (c + 1)).
Proof.
  intros Hd Hq H5 Hn.
  rewrite (poll_loop_round _ _ _ _ _ _ _ _ Hd
             (poll_tick_quiet _ _ _ tk _ Hq)).
  rewrite counted_same; simpl.
  unfold primary_rule; simpl.
  apply Z.leb_le in H5; rewrite H5.
  assert (H0 : (0 <? n - initial_source_count) = true)
    by (apply Z.ltb_lt; lia).
  rewrite H0; reflexivity.
Qed.

(** With no item above the baseline the primary rule does not hold. *)
Lemma primary_rule_needs_new_item (st : LoopState) (is_loading : bool) :
  last_sources_count st <= initial_source_count ->
  primary_rule st is_loading initial_source_count = false.
Proof.
  intros H; unfold primary_rule.
  assert (H0 : (0 <? last_sources_count st - initial_source_count) = false)
    by (apply Z.ltb_ge; lia).
  rewrite H0; apply Bool.andb_false_r.
Qed.

End Runs.

(** ** The sample pages *)

Lemma sources_page_quiet (n : nat) : quiet (sources_page n) (Z.of_nat n).
Proof.
  split; [| split].
  - exists (repeat (shown "source") n); split; [reflexivity |].
    unfold len; rewrite repeat_length; reflexivity.
  - intros [[sel [l [Hin [Hq _]]]] | [spinners [Hq Hv]]].
    + simpl in Hin.
      repeat (destruct Hin as [<- | Hin]; [cbv in Hq; discriminate |]).
      destruct Hin.
    + cbv in Hq; injection Hq as <-; discriminate.
  - intros [rs [Hq Hv]].
    cbv in Hq; injection Hq as <-; discriminate.
Qed.

Lemma marker_page_marker (n : nat) : marker_visible (marker_page n).
Proof. exists [shown "Deep Research report"]; split; reflexivity. Qed.

Lemma rounds_from_quiet (n : nat) (count : nat) :
  forall (k : Z) (tk : Tick),
    In tk (rounds_from k (repeat (sources_page n) count)) ->
    now_cond tk < 10000 * (k + Z.of_nat count)
    /\ quiet (tick_page tk) (Z.of_nat n).
Proof.
  induction count as [| count IH]; intros k tk Hin; [destruct Hin |].
  destruct Hin as [<- | Hin].
  - split; [unfold round_at; cbn [now_cond]; lia | apply sources_page_quiet].
  - destruct (IH (k + 1) tk Hin) as [Hd Hq].
    split; [lia | assumption].
Qed.

Lemma rounds_from_elapsed (pages : list Page) :
  forall (k : Z) (j : nat) (tk : Tick),
    0 <= k ->
    nth_error (rounds_from k pages) j = Some tk ->
    elapsed_at 0 tk = 10 * (k + Z.of_nat j)
    /\ (j < List.length pages)%nat.
Proof.
  induction pages as [| p pages IH]; intros k j tk Hk Hj.
  - destruct j; discriminate.
  - destruct j as [| j]; cbn [rounds_from nth_error] in Hj.
    + injection Hj as <-; split; [| simpl; lia].
      unfold elapsed_at, int_seconds, round_at; cbn [now_elapsed].
      replace (10000 * k - 0) with (10 * k * 1000) by lia.
      rewrite Z.quot_mul by lia; lia.
    + destruct (IH (k + 1) j tk ltac:(lia) Hj) as [He Hl].
      split; [rewrite He; lia | simpl; lia].
Qed.

(** ** The completion rules on sample streams *)

(** C5. In a stream whose rounds all see the baseline count, with nothing
    loading and no completion marker, the loop ends by the fallback rule in
    the first round in which the stability counter is at least 12 and more
    than 60 seconds have elapsed; after any smaller number of rounds it is
    still running; and the primary rule holds in no state whose count is
    the baseline. *)
Theorem fallback_completion_on_unchanged_count :
  forall (initial_source_count start_time deadline : Z)
         (before : list Tick) (tk : Tick) (rest : list Tick),
    (forall tk', In tk' (before ++ [tk])%list ->
                 now_cond tk' < deadline
                 /\ quiet (tick_page tk') initial_source_count) ->
    (forall k tk', nth_error before k = Some tk' ->
                   ~ (12 <= Z.of_nat k + 1
                      /\ 60 < elapsed_at start_time tk')) ->
    12 <= len before + 1 ->
    60 < elapsed_at start_time tk ->
    poll_loop initial_source_count start_time deadline
      (initial_state initial_source_count) (before ++ tk :: rest)
    = Ret (Break,
           mkLoopState initial_source_count (len before + 1) (len before + 1))
    /\ fallback_rule
         (mkLoopState initial_source_count (len before + 1) (len before + 1))
         false (elapsed_at start_time tk) = true
    /\ (forall j, (j <= List.length before)%nat ->
          poll_loop initial_source_count start_time deadline
            (initial_state initial_source_count)
            (firstn j (before ++ tk :: rest))
          = Ret (Unfinished,
                 mkLoopState initial_source_count (Z.of_nat j) (Z.of_nat j)))
    /\ (forall stable c is_loading,
          primary_rule (mkLoopState initial_source_count stable c)
            is_loading initial_source_count = false).
Proof.
  intros i s d before tk rest Hq Hf H12 H60.
  assert (Hbefore : forall k tk', nth_error before k = Some tk' ->
            now_cond tk' < d /\ quiet (tick_page tk') i
            /\ ~ (12 <= Z.of_nat k + 1 /\ 60 < elapsed_at s tk')).
  { intros k tk' Hk.
    destruct (Hq tk') as [Hd Hquiet].
    - apply in_or_app; left; eapply nth_error_In; eassumption.
    - split; [assumption | split; [assumption | apply (Hf k tk' Hk)]]. }
  destruct (Hq tk) as [Hd Hquiet];
    [apply in_or_app; right; left; reflexivity |].
  split; [| split; [| split]].
  - rewrite baseline_run by assumption.
    apply fallback_round; assumption.
  - unfold fallback_rule; simpl.
    apply Z.leb_le in H12; apply Z.ltb_lt in H60; rewrite H12, H60.
    reflexivity.
  - intros j Hj; apply baseline_prefix; assumption.
  - intros stable c is_loading.
    apply primary_rule_needs_new_item; simpl; lia.
Qed.

Lemma fallback_completion_on_unchanged_count_witness :
  poll_loop 5 0 600000 (initial_state 5) (steady_rounds ++ [round_twelve])
  = Ret (Break, mkLoopState 5 12 12).
Proof.
  refine (proj1 (fallback_completion_on_unchanged_count 5 0 600000
                   steady_rounds round_twelve [] _ _ _ _)).
  - intros tk' Hin.
    change (steady_rounds ++ [round_twelve])%list
      with (rounds_from 0 (repeat (sources_page 5) 12)) in Hin.
    destruct (rounds_from_quiet 5 12 0 tk' Hin) as [Hd Hquiet].
    split; [lia | exact Hquiet].
  - intros k tk' Hk [Hk12 _].
    destruct (rounds_from_elapsed _ 0 k tk' ltac:(lia) Hk) as [_ Hlen].
    simpl in Hlen; lia.
  - vm_compute; discriminate.
  - vm_compute; reflexivity.
Defined.

Section Change.

Variables (initial_source_count start_time deadline n : Z).
Variables (before : list Tick) (change a1 a2 a3 a4 : Tick).

Hypothesis above_baseline : initial_source_count < n.
Hypothesis before_quiet :
  forall k tk, nth_error before k = Some tk ->
               now_cond tk < deadline
               /\ quiet (tick_page tk) initial_source_count
               /\ ~ (12 <= Z.of_nat k + 1 /\ 60 < elapsed_at start_time tk).
Hypothesis change_quiet :
  now_cond change < deadline /\ quiet (tick_page change) n.
Hypothesis after_quiet :
  forall tk, In tk [a1; a2; a3; a4] ->
             now_cond tk < deadline /\ quiet (tick_page tk) n.

(** Up to the fourth round after the change no rule holds. *)
Lemma change_then_four (more : list Tick) :
  poll_loop initial_source_count start_time deadline
    (initial_state initial_source_count)
    (before ++ change :: [a1; a2; a3; a4] ++ more)
  = poll_loop initial_source_count start_time deadline
      (mkLoopState n 4 (len before + 5)) more.
Proof.
  rewrite baseline_run by exact before_quiet.
  destruct change_quiet as [Hd Hq].
  rewrite (change_round_resets _ _ _ _ _ _ n Hd Hq) by (simpl; lia).
  rewrite quiet_run.
  - simpl; f_equal; f_equal; unfold len; simpl List.length; lia.
  - intros k tk Hk; simpl.
    destruct (after_quiet tk (nth_error_In _ _ Hk)) as [Hd' Hq'].
    split; [assumption | split; [assumption |]].
    assert (Hlt : (k < 4)%nat)
      by (apply (proj1 (nth_error_Some [a1; a2; a3; a4] k)); congruence).
    split; lia.
Qed.

End Change.

(** C4, as amended. In a stream whose count leaves the baseline once, for
    a larger value, and then stays, with nothing loading and no completion
    marker, and in which the fallback rule has not held before the change,
    the loop ends by the primary rule in the fifth round after the change,
    when the stability counter reaches 5; after any smaller number of
    rounds it is still running. *)
Theorem primary_completion_five_rounds_after_change :
  forall (initial_source_count start_time deadline n : Z)
         (before : list Tick) (change : Tick) (after rest : list Tick),
    initial_source_count < n ->
    (forall tk, In tk before ->
                now_cond tk < deadline
                /\ quiet (tick_page tk) initial_source_count) ->
    (forall k tk, nth_error before k = Some tk ->
                  ~ (12 <= Z.of_nat k + 1
                     /\ 60 < elapsed_at start_time tk)) ->
    now_cond change < deadline /\ quiet (tick_page change) n ->
    List.length after = 5%nat ->
    (forall tk, In tk after ->
                now_cond tk < deadline /\ quiet (tick_page tk) n) ->
    poll_loop initial_source_count start_time deadline
      (initial_state initial_source_count)
      (before ++ change :: after ++ rest)
    = Ret (Break, mkLoopState n 5 (len before + 6))
    /\ primary_rule (mkLoopState n 5 (len before + 6)) false
         initial_source_count = true
    /\ (forall j, (j <= List.length before + 5)%nat ->
          exists st,
            poll_loop initial_source_count start_time deadline
              (initial_state initial_source_count)
              (firstn j (before ++ change :: after ++ rest))
            = Ret (Unfinished, st)).
Proof.
  intros i s d n before change after rest Hn Hb Hf Hc Hlen Ha.
  destruct after as [| a1 [| a2 [| a3 [| a4 [| a5 [| a6 after]]]]]];
    try discriminate.
  assert (Hbefore : forall k tk, nth_error before k = Some tk ->
            now_cond tk < d /\ quiet (tick_page tk) i
            /\ ~ (12 <= Z.of_nat k + 1 /\ 60 < elapsed_at s tk)).
  { intros k tk Hk.
    destruct (Hb tk (nth_error_In _ _ Hk)) as [Hd Hq].
    split; [assumption | split; [assumption | apply (Hf k tk Hk)]]. }
  assert (Hfour : forall tk, In tk [a1; a2; a3; a4] ->
            now_cond tk < d /\ quiet (tick_page tk) n).
  { intros tk Hin; apply Ha; simpl in Hin |- *; tauto. }
  destruct (Ha a5) as [Hd5 Hq5]; [simpl; tauto |].
  pose proof (change_then_four i s d n before change a1 a2 a3 a4
                Hn Hbefore Hc Hfour) as Hrun.
  split; [| split].
  - change (before ++ change :: [a1; a2; a3; a4; a5] ++ rest)%list
      with (before ++ change :: [a1; a2; a3; a4] ++ a5 :: rest)%list.
    rewrite Hrun.
    rewrite (primary_round i s d a5 rest n 4 _ Hd5 Hq5) by lia.
    f_equal; f_equal; f_equal; lia.
  - unfold primary_rule; simpl.
    assert (H0 : (0 <? n - i) = true) by (apply Z.ltb_lt; lia).
    rewrite H0; reflexivity.
  - intros j Hj.
    change (before ++ change :: [a1; a2; a3; a4; a5] ++ rest)%list
      with (before ++ (change :: [a1; a2; a3; a4]) ++ a5 :: rest)%list.
    rewrite app_assoc, firstn_within
      by (rewrite length_app; simpl List.length; lia).
    apply (poll_loop_prefix_unfinished i s d _ _
             (mkLoopState n 4 (len before + 5))).
    specialize (Hrun []); rewrite app_nil_r in Hrun.
    exact Hrun.
Qed.

Lemma primary_completion_five_rounds_after_change_witness :
  poll_loop 5 0 600000 (initial_state 5)
    (early_rounds ++ change_round :: settled_rounds)
  = Ret (Break, mkLoopState 8 5 9).
Proof.
  rewrite <- (app_nil_r settled_rounds).
  refine (proj1 (primary_completion_five_rounds_after_change 5 0 600000 8
                   early_rounds change_round settled_rounds [] _ _ _ _ _ _)).
  - lia.
  - intros tk Hin.
    destruct (rounds_from_quiet 5 3 0 tk Hin) as [Hd Hq].
    split; [lia | exact Hq].
  - intros k tk Hk [Hk12 _].
    destruct (rounds_from_elapsed _ 0 k tk ltac:(lia) Hk) as [_ Hlen].
    simpl in Hlen; lia.
  - split; [vm_compute; reflexivity | apply (sources_page_quiet 8)].
  - reflexivity.
  - intros tk Hin.
    destruct (rounds_from_quiet 8 5 4 tk Hin) as [Hd Hq].
    split; [lia | exact Hq].
Defined.

(** C4, as stated, fails when the count changes late: twelve quiet rounds
    at the baseline of 5, ten seconds apart, then 8 sources from the
    thirteenth round on. The loop ends in the twelfth round, by the
    fallback rule, with no new item and before the change. *)
Lemma late_change_completes_by_fallback :
  (forall tk, In tk late_baseline_rounds ->
              now_cond tk < 600000 /\ quiet (tick_page tk) 5)
  /\ (forall tk, In tk late_settled_rounds ->
                 now_cond tk < 600000 /\ quiet (tick_page tk) 8)
  /\ poll_loop 5 0 600000 (initial_state 5)
       (late_baseline_rounds ++ late_settled_rounds)
     = Ret (Break, mkLoopState 5 12 12)
  /\ poll_loop 5 0 600000 (initial_state 5)
       (late_baseline_rounds ++ late_settled_rounds)
     <> Ret (Break, mkLoopState 8 5 18).
Proof.
  split; [| split; [| split]]; [| | | vm_compute; discriminate].
  - intros tk Hin.
    destruct (rounds_from_quiet 5 12 0 tk Hin) as [Hd Hq].
    split; [lia | exact Hq].
  - intros tk Hin.
    destruct (rounds_from_quiet 8 6 12 tk Hin) as [Hd Hq].
    split; [lia | exact Hq].
  - vm_compute; reflexivity.
Qed.

(** ** The completion marker *)

Lemma marker_page_not_busy (n : nat) : ~ busy (marker_page n).
Proof.
  intros [[sel [l [Hin [Hq _]]]] | [spinners [Hq Hv]]].
  - simpl in Hin.
    repeat (destruct Hin as [<- | Hin]; [cbv in Hq; discriminate |]).
    destruct Hin.
  - cbv in Hq; injection Hq as <-; discriminate.
Qed.

(** C1. The code at the failing input: the report source is visible and
    nothing is loading, but the count is the baseline of 5. The round sets
    the stability counter to 10 and does not end the loop; with the marker
    visible in every round the loop runs until the deadline. *)
Theorem marker_without_new_item_keeps_polling :
  marker_visible (marker_page 5)
  /\ ~ busy (marker_page 5)
  /\ poll_tick 5 0 (initial_state 5) (round_at 0 (marker_page 5))
     = Ret (mkLoopState 5 10 1, false)
  /\ poll_loop 5 0 600000 (initial_state 5) marker_rounds
     = Ret (Deadline, mkLoopState 5 10 60).
Proof.
  split; [apply marker_page_marker |].
  split; [apply marker_page_not_busy |].
  split; vm_compute; reflexivity.
Qed.

(** ** Errors while sampling *)

Lemma report_source_check_cases (page : Page) (is_loading : bool)
    (st : LoopState) :
  report_source_check page is_loading st = Ret (is_loading, st)
  \/ (marker_visible page
      /\ report_source_check page is_loading st = Ret (false, forced st)).
Proof.
  unfold report_source_check, marker_visible.
  case_call (query_selector_all page report_sources_selector);
    [| left; reflexivity].
  destruct r as [| r rs]; [left; reflexivity |].
  case_call (any_visible (r :: rs)); [| left; reflexivity].
  destruct r0; [| left; reflexivity].
  right; split; [| reflexivity].
  exists (r :: rs); split; [reflexivity | assumption].
Qed.




(** ** The capture strategies *)

Lemma max_key_len_In (others : list string) :
  forall best, In (max_key_len best others) (best :: others).
Proof.
  induction others as [| t rest IH]; intros best; simpl; [auto |].
  destruct (len_str best <? len_str t).
  - right; apply IH.
  - destruct (IH best) as [H | H]; [left; exact H | right; right; exact H].
Qed.

Lemma max_key_len_bound (others : list string) :
  forall best, len_str best <= len_str (max_key_len best others).
Proof.
  induction others as [| t rest IH]; intros best; simpl; [lia |].
  destruct (len_str best <? len_str t) eqn:Hlt.
  - apply Z.ltb_lt in Hlt; specialize (IH t); lia.
  - apply IH.
Qed.

Lemma max_key_len_longest (others : list string) :
  forall best x,
    In x (best :: others) ->
    len_str x <= len_str (max_key_len best others).
Proof.
  induction others as [| t rest IH]; intros best x Hin.
  - destruct Hin as [<- | []]; simpl; lia.
  - simpl; destruct (len_str best <? len_str t) eqn:Hlt.
    + apply Z.ltb_lt in Hlt.
      destruct Hin as [<- | Hin].
      * pose proof (max_key_len_bound rest t); lia.
      * apply IH; exact Hin.
    + apply Z.ltb_ge in Hlt.
      destruct Hin as [<- | [<- | Hin]].
      * apply max_key_len_bound.
      * pose proof (max_key_len_bound rest best); lia.
      * apply IH; right; exact Hin.
Qed.

(** What [chat_texts] collects: the stripped texts, longer than 100, of
    the visible elements. *)
Lemma chat_texts_spec (elements : list Element) :
  forall texts,
    chat_texts elements = Ret texts ->
    forall x,
      In x texts <->
      exists el raw, In el elements
                     /\ is_visible el = Ret true
                     /\ inner_text el = Ret raw
                     /\ x = strip raw
                     /\ 100 < len_str x.
Proof.
  induction elements as [| el rest IH]; intros texts H x.
  - injection H as <-; split; [intros [] | intros [el [raw [[] _]]]].
  - simpl in H.
    case_call (is_visible el); [| discriminate].
    destruct r.
    + case_call (inner_text el); [| discriminate].
      case_call (chat_texts rest); [| discriminate].
      injection H as <-.
      specialize (IH r0 eq_refl x).
      destruct (100 <? len_str (strip r)) eqn:Hlen.
      * apply Z.ltb_lt in Hlen; split.
        -- intros [<- | Hin].
           ++ exists el, r; simpl; auto.
           ++ apply IH in Hin.
              destruct Hin as [el' [raw [Hin' Hrest]]].
              exists el', raw; simpl; auto.
        -- intros [el' [raw [[<- | Hin'] [Hv [Ht [Hx Hl]]]]]].
           ++ left; congruence.
           ++ right; apply IH; exists el', raw; auto.
      * apply Z.ltb_ge in Hlen; split.
        -- intros Hin; apply IH in Hin.
           destruct Hin as [el' [raw [Hin' Hrest]]].
           exists el', raw; simpl; auto.
        -- intros [el' [raw [[<- | Hin'] [Hv [Ht [Hx Hl]]]]]].
           ++ exfalso; assert (raw = r) by congruence; subst; lia.
           ++ apply IH; exists el', raw; auto.
    + specialize (IH texts H x); split.
      * intros Hin; apply IH in Hin.
        destruct Hin as [el' [raw [Hin' Hrest]]].
        exists el', raw; simpl; auto.
      * intros [el' [raw [[<- | Hin'] [Hv [Ht [Hx Hl]]]]]].
        -- congruence.
        -- apply IH; exists el', raw; auto.
Qed.

Section Strategy1.

Variable page : Page.

Lemma chat_candidates_inv (sel : string) (t : string) (ts : list string) :
  chat_candidates page sel = t :: ts ->
  exists elements,
    query_selector_all page sel = Ret elements
    /\ chat_texts elements = Ret (t :: ts).
Proof.
  unfold chat_candidates.
  case_call (query_selector_all page sel); [| discriminate].
  case_call (chat_texts r); [| discriminate].
  intros ->; eauto.
Qed.

Lemma strategy1_skip (sel : string) (rest : list string) :
  chat_candidates page sel = [] ->
  strategy1_chat page (sel :: rest) = strategy1_chat page rest.
Proof.
  unfold chat_candidates; simpl.
  case_call (query_selector_all page sel); [| reflexivity].
  destruct r as [| el els]; [reflexivity |].
  case_call (chat_texts (el :: els)); [| reflexivity].
  intros ->; reflexivity.
Qed.

Lemma strategy1_hit (sel : string) (rest : list string) (t : string)
    (ts : list string) :
  chat_candidates page sel = t :: ts ->
  strategy1_chat page (sel :: rest) = Ret (Some (max_key_len t ts)).
Proof.
  intros H; destruct (chat_candidates_inv _ _ _ H) as [els [Hq Ht]].
  simpl; rewrite Hq; simpl.
  destruct els as [| el els]; [simpl in Ht; discriminate |].
  rewrite Ht; reflexivity.
Qed.

Lemma strategy1_first (before : list string) (sel : string)
    (after : list string) (t : string) (ts : list string) :
  (forall s, In s before -> chat_candidates page s = []) ->
  chat_candidates page sel = t :: ts ->
  strategy1_chat page (before ++ sel :: after)
  = Ret (Some (max_key_len t ts)).
Proof.
  induction before as [| s before IH]; intros Hb Hsel.
  - apply strategy1_hit; assumption.
  - rewrite <- app_comm_cons, strategy1_skip
      by (apply Hb; left; reflexivity).
    apply IH; [| assumption].
    intros s' Hin; apply Hb; right; assumption.
Qed.

(** Strategy 1 returns, and what it returns is longer than 100. *)
Lemma strategy1_result (sels : list string) :
  strategy1_chat page sels = Ret None
  \/ exists text, strategy1_chat page sels = Ret (Some text)
                  /\ 100 < len_str text.
Proof.
  induction sels as [| sel rest IH]; [left; reflexivity |].
  destruct (chat_candidates page sel) as [| t ts] eqn:Hc.
  - rewrite (strategy1_skip _ _ Hc); exact IH.
  - right; exists (max_key_len t ts); split; [apply strategy1_hit, Hc |].
    destruct (chat_candidates_inv _ _ _ Hc) as [els [_ Ht]].
    destruct (proj1 (chat_texts_spec _ _ Ht (max_key_len t ts))
                (max_key_len_In ts t)) as [el [raw [_ [_ [_ [_ Hl]]]]]].
    exact Hl.
Qed.

End Strategy1.

(** [max(texts, key=len)] is the first text of maximal length: the texts
    before it are strictly shorter. *)
Lemma max_key_len_first (others : list string) :
  forall best,
  exists l1 l2,
    best :: others = (l1 ++ max_key_len best others :: l2)%list
    /\ forall x, In x l1 -> len_str x < len_str (max_key_len best others).
Proof.
  induction others as [| t rest IH]; intros best.
  - exists [], []; split; [reflexivity | intros x []].
  - cbn [max_key_len].
    destruct (len_str best <? len_str t) eqn:Hlt.
    + apply Z.ltb_lt in Hlt.
      destruct (IH t) as [l1 [l2 [Heq Hl1]]].
      exists (best :: l1), l2; split.
      * rewrite <- app_comm_cons, <- Heq; reflexivity.
      * intros x [<- | Hin]; [| apply Hl1; exact Hin].
        pose proof (max_key_len_bound rest t); lia.
    + apply Z.ltb_ge in Hlt.
      destruct (IH best) as [l1 [l2 [Heq Hl1]]].
      destruct l1 as [| b l1].
      * injection Heq as Hm Hrest.
        exists [], (t :: rest); split; [| intros x []].
        cbn [app]; rewrite <- Hm; reflexivity.
      * injection Heq as <- Hrest.
        exists (best :: t :: l1), l2; split.
        -- cbn [app]; do 2 f_equal; exact Hrest.
        -- pose proof (Hl1 best (or_introl eq_refl)) as Hbest.
           intros x [<- | [<- | Hin]];
             [exact Hbest | lia | apply Hl1; right; exact Hin].
Qed.

(** The texts [chat_texts] collects are in the order of the elements. *)
Lemma chat_texts_in_order (elements : list Element) :
  forall texts,
    chat_texts elements = Ret texts ->
    texts = flat_map chat_piece elements.
Proof.
  induction elements as [| el rest IH]; intros texts H.
  - injection H as <-; reflexivity.
  - cbn [chat_texts flat_map] in H |- *; unfold chat_piece at 1.
    destruct (is_visible el) as [[|] | m]; cbn [bind] in H;
      [| apply IH; exact H | discriminate].
    destruct (inner_text el) as [raw | m]; cbn [bind] in H;
      [| discriminate].
    destruct (chat_texts rest) as [texts' | m]; cbn [bind] in H;
      [| discriminate].
    injection H as <-; rewrite (IH texts' eq_refl).
    destruct (100 <? len_str (strip raw)); reflexivity.
Qed.

(** C7, as amended. Strategy 1 returns the longest text among those of
    the first chat selector, in list order, that has a candidate: a
    selector whose visible elements could all be read and include a text
    longer than 100. The candidates are exactly the stripped texts longer
    than 100 of the visible elements that selector matches, in the order
    of the page; among equally long ones the first is returned: every
    candidate before the returned text is strictly shorter. Elements of
    later selectors are not looked at. *)
Theorem strategy1_longest_of_first_selector :
  forall (page : Page) (before : list string) (sel : string)
         (after : list string) (t : string) (ts : list string),
    chat_selectors = (before ++ sel :: after)%list ->
    (forall s, In s before -> chat_candidates page s = []) ->
    chat_candidates page sel = t :: ts ->
    exists elements,
      query_selector_all page sel = Ret elements
      /\ strategy1_chat page chat_selectors = Ret (Some (max_key_len t ts))
      /\ In (max_key_len t ts) (t :: ts)
      /\ (forall x, In x (t :: ts) ->
                    len_str x <= len_str (max_key_len t ts))
      /\ (forall x,
            In x (t :: ts) <->
            exists el raw, In el elements
                           /\ is_visible el = Ret true
                           /\ inner_text el = Ret raw
                           /\ x = strip raw
                           /\ 100 < len_str x)
      /\ t :: ts = flat_map chat_piece elements
      /\ (exists earlier later,
            t :: ts = (earlier ++ max_key_len t ts :: later)%list
            /\ forall x, In x earlier ->
                         len_str x < len_str (max_key_len t ts)).
Proof.
  intros page before sel after t ts Hsels Hb Hsel.
  destruct (chat_candidates_inv _ _ _ _ Hsel) as [els [Hq Ht]].
  exists els.
  split; [exact Hq |].
  split; [rewrite Hsels; apply strategy1_first; assumption |].
  split; [apply max_key_len_In |].
  split; [apply max_key_len_longest |].
  split; [apply chat_texts_spec; exact Ht |].
  split; [apply chat_texts_in_order; exact Ht |].
  apply max_key_len_first.
Qed.

Lemma strategy1_longest_of_first_selector_witness :
  strategy1_chat one_selector_page chat_selectors = Ret (Some long_answer)
  /\ strategy1_chat tied_answers_page chat_selectors
     = Ret (Some first_tied_answer).
Proof.
  split.
  - destruct (strategy1_longest_of_first_selector one_selector_page
                [".to-user-container .message-text-content"]
                "[data-message-author='bot']"
                ["[data-message-author='assistant']";
                 class_has "response"; class_has "answer"]
                short_answer [long_answer])
      as [els [_ [H _]]].
    + reflexivity.
    + intros s [<- | []]; vm_compute; reflexivity.
    + vm_compute; reflexivity.
    + exact H.
  - destruct (strategy1_longest_of_first_selector tied_answers_page
                [".to-user-container .message-text-content"]
                "[data-message-author='bot']"
                ["[data-message-author='assistant']";
                 class_has "response"; class_has "answer"]
                short_answer [first_tied_answer; second_tied_answer])
      as [els [_ [H _]]].
    + reflexivity.
    + intros s [<- | []]; vm_compute; reflexivity.
    + vm_compute; reflexivity.
    + exact H.
Defined.

(** C7, as stated, fails when two chat selectors match: the first one has
    a visible text of 101 characters, the second one a visible text of 150
    characters, and strategy 1 returns the text of 101. *)
Lemma strategy1_ignores_longer_text_of_later_selector :
  In "[data-message-author='bot']" chat_selectors
  /\ query_selector_all two_answers_page "[data-message-author='bot']"
     = Ret [shown long_answer]
  /\ len_str short_answer = 101
  /\ len_str long_answer = 150
  /\ strategy1_chat two_answers_page chat_selectors
     = Ret (Some short_answer).
Proof.
  split; [right; left; reflexivity |].
  repeat split; vm_compute; reflexivity.
Qed.

Lemma len_str_append (s1 s2 : string) :
  len_str (s1 ++ s2) = len_str s1 + len_str s2.
Proof.
  unfold len_str; induction s1 as [| c s1 IH]; simpl String.length.
  - reflexivity.
  - rewrite !Nat2Z.inj_succ; lia.
Qed.

Lemma concat_at_least_first (sep t : string) (ts : list string) :
  len_str t <= len_str (String.concat sep (t :: ts)).
Proof.
  destruct ts as [| t' ts]; simpl; [lia |].
  rewrite len_str_append.
  unfold len_str at 3; lia.
Qed.

Lemma report_texts_long (elements : list Element) :
  forall texts x,
    report_texts elements = Ret texts -> In x texts ->
    exists el raw raw', In el elements
                        /\ is_visible el = Ret true
                        /\ inner_text el = Ret raw
                        /\ 50 < len_str (strip raw)
                        /\ inner_text el = Ret raw'
                        /\ x = strip raw'.
Proof.
  induction elements as [| el rest IH]; intros texts x H Hin.
  - injection H as <-; destruct Hin.
  - simpl in H.
    case_call (is_visible el); [| discriminate].
    destruct r.
    + case_call (inner_text el); [| discriminate].
      simpl in H.
      destruct (50 <? len_str (strip r)) eqn:Hlen.
      * apply Z.ltb_lt in Hlen.
        case_call (report_texts rest); [| discriminate].
        injection H as <-.
        destruct Hin as [<- | Hin].
        -- exists el, r, r; simpl; auto 10.
        -- destruct (IH _ _ eq_refl Hin) as [el' [raw [raw' [Hi Hr]]]].
           exists el', raw, raw'; simpl; auto.
      * destruct (IH _ _ H Hin) as [el' [raw [raw' [Hi Hr]]]].
        exists el', raw, raw'; simpl; auto.
    + destruct (IH _ _ H Hin) as [el' [raw [raw' [Hi Hr]]]].
      exists el', raw, raw'; simpl; auto.
Qed.

Section Strategies.

Variable page : Page.

(** Strategy 2 returns, and what it adds is longer than 50. *)
Lemma strategy2_result (sels : list string) (report_text : option string) :
  strategy2_report page sels report_text = Ret report_text
  \/ exists text, strategy2_report page sels report_text = Ret (Some text)
                  /\ 50 < len_str text.
Proof.
  induction sels as [| sel rest IH]; [left; reflexivity |].
  simpl.
  case_call (query_selector_all page sel); [| exact IH].
  destruct r as [| el els]; [exact IH |].
  case_call (report_texts (el :: els)); [| exact IH].
  destruct r as [| t ts]; [exact IH |].
  right; exists (String.concat blank_line (t :: ts)); split; [reflexivity |].
  destruct (report_texts_long _ _ t Hcall0 (or_introl eq_refl))
    as [el' [raw [raw' [_ [_ [Hraw [Hlen [Hraw' ->]]]]]]]].
  assert (raw = raw') by congruence; subst raw'.
  pose proof (concat_at_least_first blank_line (strip raw) ts); lia.
Qed.

(** Reading the opened report returns, and what it adds is longer than
    200. *)
Lemma read_opened_report_result (sels : list string)
    (report_text : option string) :
  read_opened_report page sels report_text = Ret report_text
  \/ exists text, read_opened_report page sels report_text = Ret (Some text)
                  /\ 200 < len_str text.
Proof.
  induction sels as [| sel rest IH]; [left; reflexivity |].
  simpl.
  case_call (query_selector page sel); [| exact IH].
  destruct r as [el |]; simpl; [| exact IH].
  case_call (is_visible el); [| exact IH].
  destruct r; simpl; [| exact IH].
  case_call (inner_text el); [| exact IH].
  destruct (200 <? len_str (strip r)) eqn:Hlen; simpl; [| exact IH].
  right; exists (strip r); split; [reflexivity | apply Z.ltb_lt, Hlen].
Qed.

Lemma strategy3_result (click : exc unit) (report_text : option string) :
  strategy3_click click page report_text = Ret report_text
  \/ exists text, strategy3_click click page report_text = Ret (Some text)
                  /\ 200 < len_str text.
Proof.
  unfold strategy3_click.
  destruct click as [[] | e]; cbn [bind try_except]; [| left; reflexivity].
  destruct (read_opened_report_result opened_report_selectors report_text)
    as [H | [text [H Hlen]]]; rewrite H; cbn [try_except]; eauto.
Qed.

Lemma strategy4_returns (report_text : option string) :
  exists r, strategy4_sources page report_text = Ret r.
Proof. apply try_except_returns. Qed.

Lemma strategy5_returns (report_text : option string) :
  exists r, strategy5_body page report_text = Ret r.
Proof. apply try_except_returns. Qed.

Lemma strategy5_reads_body (report_text : option string) (text : string) :
  page_inner_text page "body" = Ret text ->
  strategy5_body page report_text = Ret (Some text).
Proof. intros H; unfold strategy5_body; rewrite H; reflexivity. Qed.

End Strategies.

Lemma py_not_long (text : string) (n : Z) :
  0 <= n -> n < len_str text -> py_not (Some text) = false.
Proof.
  intros Hn Hlen; destruct text; [| reflexivity].
  unfold len_str in Hlen; simpl in Hlen; lia.
Qed.

(** ** The chain as a whole *)

Section Chain.

Variables (page : Page) (click : exc unit) (clicked : Page).

(** The chain returns, with a text that is not empty or with every
    strategy exhausted. *)
Lemma capture_cases :
  exists r,
    capture page click clicked = Ret r
    /\ (py_not r = false \/ exhausted page click clicked r).
Proof.
  unfold capture, exhausted.
  destruct (strategy1_result page chat_selectors) as [H1 | [t1 [H1 L1]]];
    rewrite H1; cbn [bind].
  2:{ rewrite (py_not_long t1 100) by (lia || assumption); cbn [bind].
      rewrite (py_not_long t1 100) by (lia || assumption); cbn [bind].
      rewrite (py_not_long t1 100) by (lia || assumption); cbn [bind].
      rewrite (py_not_long t1 100) by (lia || assumption).
      exists (Some t1); split; [reflexivity | left].
      apply (py_not_long t1 100); lia || assumption. }
  cbn [py_not].
  destruct (strategy2_result page DEEP_RESEARCH_REPORT_SELECTORS None)
    as [H2 | [t2 [H2 L2]]]; rewrite H2; cbn [bind].
  2:{ rewrite (py_not_long t2 50) by (lia || assumption); cbn [bind].
      rewrite (py_not_long t2 50) by (lia || assumption); cbn [bind].
      rewrite (py_not_long t2 50) by (lia || assumption).
      exists (Some t2); split; [reflexivity | left].
      apply (py_not_long t2 50); lia || assumption. }
  cbn [py_not].
  destruct (strategy3_result clicked click None)
    as [H3 | [t3 [H3 L3]]]; rewrite H3; cbn [bind].
  2:{ rewrite (py_not_long t3 200) by (lia || assumption); cbn [bind].
      rewrite (py_not_long t3 200) by (lia || assumption).
      exists (Some t3); split; [reflexivity | left].
      apply (py_not_long t3 200); lia || assumption. }
  cbn [py_not].
  destruct (strategy4_returns clicked None) as [r4 H4].
  rewrite H4; cbn [bind].
  destruct (py_not r4) eqn:P4; [| exists r4; auto].
  destruct (strategy5_returns clicked r4) as [r5 H5].
  rewrite H5; exists r5; split; [reflexivity |].
  destruct (py_not r5) eqn:P5; [right | left; reflexivity].
  exists None, None, r4; auto 10.
Qed.

Lemma capture_with_body (text : string) :
  page_inner_text clicked "body" = Ret text ->
  text <> "" ->
  exists r, capture page click clicked = Ret r /\ py_not r = false.
Proof.
  intros Hbody Htext.
  destruct capture_cases as [r [Hc [Hr | Hex]]]; [eauto |].
  exfalso.
  destruct Hex as [r2 [r3 [r4 [_ [_ [_ [_ [_ [_ [_ [H5 P5]]]]]]]]]]].
  rewrite (strategy5_reads_body clicked r4 text Hbody) in H5.
  injection H5 as <-.
  destruct text; [congruence | discriminate].
Qed.

End Chain.

(** ** The returned dict *)

Lemma capture_results_outcome (w : World) (initial_source_count : Z)
    (st : LoopState) :
  exists r,
    capture (result_page w) (report_click w) (clicked_page w) = Ret r
    /\ (py_not r = false
        \/ exhausted (result_page w) (report_click w) (clicked_page w) r)
    /\ capture_results w initial_source_count st
       = Ret (if py_not r
              then mkOutcome false (Some "Could not capture research results")
                     (Some (last_sources_count st - initial_source_count))
                     None
                     (Some (int_seconds (end_time w) (start_time w))) None
              else mkOutcome true None
                     (Some (last_sources_count st - initial_source_count))
                     (Some (last_sources_count st))
                     (Some (int_seconds (end_time w) (start_time w))) r).
Proof.
  destruct (capture_cases (result_page w) (report_click w) (clicked_page w))
    as [r [Hc Hr]].
  exists r; split; [exact Hc | split; [exact Hr |]].
  unfold capture_results; rewrite Hc; cbn [bind].
  destruct (py_not r); reflexivity.
Qed.

(** C8, as amended. The capture ends in the failure outcome only when all
    five strategies have run and each has left the text empty; that
    outcome, like the success outcome, carries the item count and the
    elapsed time. A page whose body text can be read and is not empty
    gives a success outcome with a text that is not empty. *)
Theorem capture_fails_only_when_exhausted :
  forall (w : World) (initial_source_count : Z) (st : LoopState),
  exists o,
    capture_results w initial_source_count st = Ret o
    /\ sources_count o = Some (last_sources_count st - initial_source_count)
    /\ elapsed_seconds o = Some (int_seconds (end_time w) (start_time w))
    /\ (success o = false ->
        error o = Some "Could not capture research results"
        /\ exists r,
             exhausted (result_page w) (report_click w) (clicked_page w) r)
    /\ (forall text,
          page_inner_text (clicked_page w) "body" = Ret text ->
          text <> "" ->
          success o = true
          /\ exists t, report o = Some t /\ t <> "")
    /\ (success o = true -> error o = None).
Proof.
  intros w i st.
  destruct (capture_results_outcome w i st) as [r [Hc [Hr Ho]]].
  eexists; split; [exact Ho |].
  destruct (py_not r) eqn:Hpy; simpl.
  - split; [reflexivity | split; [reflexivity |]].
    split; [| split; [| discriminate]].
    + intros _; split; [reflexivity |].
      destruct Hr as [Hr | Hr]; [discriminate | eauto].
    + intros text Hbody Htext.
      destruct (capture_with_body (result_page w) (report_click w)
                  (clicked_page w) text Hbody Htext) as [r' [Hc' Hr']].
      congruence.
  - split; [reflexivity | split; [reflexivity |]].
    split; [discriminate | split; [| reflexivity]].
    intros text _ _; split; [reflexivity |].
    destruct r as [[| c t] |]; try discriminate.
    exists (String c t); split; [reflexivity | discriminate].
Qed.

Lemma capture_fails_only_when_exhausted_witness :
  exists o,
    capture_results (quiet_world (blank_page "NotebookLM")) 5
      (mkLoopState 5 12 12) = Ret o
    /\ success o = true.
Proof.
  destruct (capture_fails_only_when_exhausted
              (quiet_world (blank_page "NotebookLM")) 5 (mkLoopState 5 12 12))
    as [o [Hc [_ [_ [_ [Hbody _]]]]]].
  exists o; split; [exact Hc |].
  apply (Hbody "NotebookLM"); [reflexivity | discriminate].
Defined.

(** C8, as stated, fails on a page whose body text is the empty string:
    the text can be read, no strategy finds anything else, and the outcome
    is the failure. *)
Lemma empty_body_gives_failure :
  page_inner_text (clicked_page (quiet_world (blank_page ""))) "body" = Ret ""
  /\ run_deep_research (quiet_world (blank_page "")) None
     = Some (mkOutcome false (Some "Could not capture research results")
               (Some 0) None (Some 111) None).
Proof. split; vm_compute; reflexivity. Qed.

(** C3. The code at the failing input: nothing matches strategies 1 to 3
    and the sources panel has a text of 9 characters. Strategy 4 assigns
    it, strategy 5 does not run, and the call returns it as the report. *)
Theorem short_sources_panel_text_is_returned :
  strategy1_chat short_panel_page chat_selectors = Ret None
  /\ strategy2_report short_panel_page DEEP_RESEARCH_REPORT_SELECTORS None
     = Ret None
  /\ strategy3_click (Raise "Timeout 30000ms exceeded") short_panel_page None
     = Ret None
  /\ strategy4_sources short_panel_page None = Ret (Some "3 sources")
  /\ len_str "3 sources" = 9
  /\ capture short_panel_page (Raise "Timeout 30000ms exceeded")
       short_panel_page
     = Ret (Some "3 sources")
  /\ run_deep_research (quiet_world short_panel_page) None
     = Some (mkOutcome true None (Some 0) (Some 5) (Some 111)
               (Some "3 sources")).
Proof. repeat split; vm_compute; reflexivity. Qed.

(** ** The whole call *)

(** After the loop, the call is the capture, whichever way the loop was
    left. *)
Lemma run_after_loop (w : World) (timeout : option Z)
    (initial_source_count : Z) (exit : LoopExit) (st : LoopState)
    (o : Outcome) :
  is_authenticated w = true ->
  ui_steps w = Ret true ->
  wait_for_completion w (effective_timeout timeout)
  = Ret (initial_source_count, (exit, st)) ->
  exit <> Unfinished ->
  capture_results w initial_source_count st = Ret o ->
  run_deep_research w timeout = Some o.
Proof.
  intros Ha Hu Hw He Hc.
  unfold run_deep_research, research_body.
  rewrite Ha, Hu; cbn [negb bind].
  rewrite Hw; cbn [bind].
  destruct exit; [| | congruence]; rewrite Hc; reflexivity.
Qed.

(** What a round does to the round counter and to the last count. *)
Lemma poll_tick_count (initial_source_count start_time : Z)
    (st st' : LoopState) (tk : Tick) (stop : bool) :
  poll_tick initial_source_count start_time st tk = Ret (st', stop) ->
  check_num st' = check_num st + 1
  /\ last_sources_count st'
     = match query_selector_all (tick_page tk) sources_selector with
       | Ret els => len els
       | Raise _ => last_sources_count st
       end.
Proof.
  unfold poll_tick; intros Ht.
  assert (Hs : exists st1,
             sample_sources (tick_page tk) (bump st) = Ret st1
             /\ check_num st1 = check_num st + 1
             /\ last_sources_count st1
                = match query_selector_all (tick_page tk) sources_selector
                  with
                  | Ret els => len els
                  | Raise _ => last_sources_count st
                  end).
  { unfold sample_sources.
    destruct (query_selector_all (tick_page tk) sources_selector)
      as [els | e]; cbn [bind try_except].
    - destruct (len els =? last_sources_count (bump st)) eqn:Heq;
        cbn [negb try_except]; eexists; split; try reflexivity.
      + simpl; split; [reflexivity |].
        apply Z.eqb_eq in Heq; simpl in Heq; lia.
      + simpl; split; reflexivity.
    - eexists; split; [reflexivity | simpl; split; reflexivity]. }
  destruct Hs as [st1 [H1 [Hc Hl]]].
  unfold bump in H1; rewrite H1 in Ht; cbn [bind] in Ht.
  destruct (loading_indicator_returns (tick_page tk)
              DEEP_RESEARCH_LOADING_SELECTORS) as [l1 H2].
  rewrite H2 in Ht; cbn [bind] in Ht.
  destruct (spinner_check_returns (tick_page tk) l1) as [l2 H3].
  rewrite H3 in Ht; cbn [bind] in Ht.
  destruct (report_source_check_cases (tick_page tk) l2 st1)
    as [H4 | [_ H4]]; rewrite H4 in Ht; cbn [bind] in Ht.
  - assert (Hst : st' = st1).
    { destruct (primary_rule st1 l2 initial_source_count); [congruence |].
      destruct (fallback_rule st1 l2
                  (int_seconds (now_elapsed tk) start_time)); congruence. }
    subst st'; auto.
  - assert (Hst : st' = forced st1).
    { destruct (primary_rule (forced st1) false initial_source_count);
        [congruence |].
      destruct (fallback_rule (forced st1) false
                  (int_seconds (now_elapsed tk) start_time)); congruence. }
    subst st'; simpl; auto.
Qed.

(** The state the loop ends in: its round counter tells how many rounds
    ran, and its last count is the last one those rounds sampled. *)
Lemma poll_loop_last_sampled (initial_source_count start_time deadline : Z)
    (ticks : list Tick) :
  forall (st st' : LoopState) (exit : LoopExit),
    poll_loop initial_source_count start_time deadline st ticks
    = Ret (exit, st') ->
    exists k : nat,
      (k <= List.length ticks)%nat
      /\ check_num st' = check_num st + Z.of_nat k
      /\ last_sources_count st'
         = last_sampled_count (last_sources_count st) (firstn k ticks).
Proof.
  induction ticks as [| tk rest IH]; intros st st' exit H.
  - injection H as _ <-; exists O; simpl; split; [lia | split; [lia |]].
    reflexivity.
  - simpl in H.
    destruct (now_cond tk <? deadline).
    + destruct (poll_tick_decides initial_source_count start_time st tk)
        as [st1 [l Ht]].
      destruct (poll_tick_count _ _ _ _ _ _ Ht) as [Hc Hl].
      rewrite Ht in H; cbn [bind] in H.
      destruct (primary_rule st1 l initial_source_count
                || fallback_rule st1 l (elapsed_at start_time tk)).
      * injection H as _ <-; exists 1%nat; simpl List.length.
        split; [lia | split; [lia |]].
        simpl; exact Hl.
      * destruct (IH _ _ _ H) as [k [Hk [Hck Hlk]]].
        exists (S k); simpl List.length.
        split; [lia | split; [lia |]].
        rewrite Hlk, Hl; reflexivity.
    + injection H as _ <-; exists O; simpl; split; [lia | split; [lia |]].
      reflexivity.
Qed.

(** C2, as amended. When the loop is left by the deadline, the call goes
    on to the capture as it does after a [break]: its outcome is the one
    of the capture for the state the loop ended in. It carries the item
    count and the elapsed time; it is a success whenever some strategy
    yields a text that is not empty, as the body text does when it can be
    read and is not empty, and otherwise the failure of an exhausted
    capture. No outcome names a timeout. *)
Theorem deadline_exit_goes_on_to_capture :
  forall (w : World) (timeout : option Z) (initial_source_count : Z)
         (st : LoopState),
    is_authenticated w = true ->
    ui_steps w = Ret true ->
    wait_for_completion w (effective_timeout timeout)
    = Ret (initial_source_count, (Deadline, st)) ->
    exists o,
      run_deep_research w timeout = Some o
      /\ capture_results w initial_source_count st = Ret o
      /\ sources_count o = Some (last_sources_count st - initial_source_count)
      /\ elapsed_seconds o = Some (int_seconds (end_time w) (start_time w))
      /\ (success o = false ->
          error o = Some "Could not capture research results"
          /\ exists r,
               exhausted (result_page w) (report_click w) (clicked_page w) r)
      /\ (forall text,
            page_inner_text (clicked_page w) "body" = Ret text ->
            text <> "" ->
            success o = true
            /\ exists t, report o = Some t /\ t <> "")
      /\ (success o = true -> error o = None).
Proof.
  intros w timeout i st Ha Hu Hw.
  destruct (capture_results_outcome w i st) as [r [Hc [Hr Ho]]].
  eexists; split.
  { apply (run_after_loop w timeout i Deadline st _ Ha Hu Hw);
      [discriminate | exact Ho]. }
  split; [exact Ho |].
  destruct (py_not r) eqn:Hpy; cbn [success error sources_count
                                    elapsed_seconds report].
  - split; [reflexivity | split; [reflexivity |]].
    split; [| split; [| discriminate]].
    + intros _; split; [reflexivity |].
      destruct Hr as [Hr | Hr]; [discriminate | eauto].
    + intros text Hbody Htext.
      destruct (capture_with_body (result_page w) (report_click w)
                  (clicked_page w) text Hbody Htext) as [r' [Hc' Hr']].
      congruence.
  - split; [reflexivity | split; [reflexivity |]].
    split; [discriminate | split; [| reflexivity]].
    intros text _ _; split; [reflexivity |].
    destruct r as [[| c t] |]; try discriminate.
    exists (String c t); split; [reflexivity | discriminate].
Qed.

Lemma deadline_exit_goes_on_to_capture_witness :
  exists o,
    run_deep_research busy_world None = Some o
    /\ sources_count o = Some 3
    /\ elapsed_seconds o = Some 600.
Proof.
  destruct (deadline_exit_goes_on_to_capture busy_world None 5
              (mkLoopState 8 59 60))
    as [o [Hr [_ [Hs [He _]]]]].
  - reflexivity.
  - reflexivity.
  - vm_compute; reflexivity.
  - exists o; split; [exact Hr | split; [exact Hs | exact He]].
Defined.

(** C2, as stated, fails on a run that is busy until the deadline of the
    default timeout: the loop is left by its condition after 60 rounds,
    and the call returns a success with the text of the page body. *)
Lemma timed_out_run_returns_success :
  wait_for_completion busy_world (effective_timeout None)
  = Ret (5, (Deadline, mkLoopState 8 59 60))
  /\ run_deep_research busy_world None
     = Some (mkOutcome true None (Some 3) (Some 8) (Some 600)
               (Some "NotebookLM")).
Proof. split; vm_compute; reflexivity. Qed.

(** C10. The [sources_count] of an outcome that has one is the last count
    that a round of the loop sampled without an exception, the baseline
    when there is none, minus the baseline taken before the loop; nothing
    is sampled again after the loop. It is negative when the list has
    shrunk: from 5 to 3 entries it is -2. *)
Theorem sources_count_is_last_sample_minus_baseline :
  (forall (w : World) (timeout : option Z) (o : Outcome) (c : Z),
      run_deep_research w timeout = Some o ->
      sources_count o = Some c ->
      exists elements exit st,
        query_selector_all (start_page w) initial_sources_selector
        = Ret elements
        /\ poll_loop (len elements) (start_time w)
             (start_time w + 1000 * effective_timeout timeout)
             (initial_state (len elements)) (ticks w)
           = Ret (exit, st)
        /\ 0 <= check_num st <= len (ticks w)
        /\ c = last_sampled_count (len elements)
                 (firstn (Z.to_nat (check_num st)) (ticks w))
               - len elements)
  /\ exists o,
       run_deep_research shrinking_world None = Some o
       /\ sources_count o = Some (-2).
Proof.
  split.
  - intros w timeout o c Hrun Hc.
    unfold run_deep_research, research_body, wait_for_completion in Hrun.
    destruct (is_authenticated w); cbn [negb] in Hrun;
      [| injection Hrun as <-; discriminate].
    destruct (ui_steps w) as [[|] | e]; cbn [bind negb] in Hrun;
      [| injection Hrun as <-; discriminate
       | injection Hrun as <-; discriminate].
    destruct (query_selector_all (start_page w) initial_sources_selector)
      as [elements | e]; cbn [bind] in Hrun;
      [| injection Hrun as <-; discriminate].
    destruct (poll_loop_returns (len elements) (start_time w)
                (start_time w + 1000 * effective_timeout timeout)
                (ticks w) (initial_state (len elements)))
      as [exit [st Hloop]].
    rewrite Hloop in Hrun; cbn [bind] in Hrun.
    destruct (poll_loop_last_sampled _ _ _ _ _ _ _ Hloop)
      as [k [Hk [Hck Hlast]]].
    simpl in Hck, Hlast.
    exists elements, exit, st.
    split; [reflexivity | split; [exact Hloop |]].
    split; [unfold len; lia |].
    replace (Z.to_nat (check_num st)) with k by lia.
    rewrite <- Hlast.
    destruct (capture_results_outcome w (len elements) st)
      as [r [_ [_ Ho']]].
    destruct exit; try discriminate;
      rewrite Ho' in Hrun; cbn [bind] in Hrun;
      injection Hrun as <-;
      destruct (py_not r); simpl in Hc; congruence.
  - eexists; split; vm_compute; reflexivity.
Qed.

Lemma sources_count_is_last_sample_minus_baseline_witness :
  exists elements exit st,
    query_selector_all (start_page shrinking_world) initial_sources_selector
    = Ret elements
    /\ poll_loop (len elements) (start_time shrinking_world)
         (start_time shrinking_world + 1000 * effective_timeout None)
         (initial_state (len elements)) (ticks shrinking_world)
       = Ret (exit, st)
    /\ 0 <= check_num st <= len (ticks shrinking_world)
    /\ -2 = last_sampled_count (len elements)
              (firstn (Z.to_nat (check_num st)) (ticks shrinking_world))
            - len elements.
Proof.
  eapply (proj1 sources_count_is_last_sample_minus_baseline
            shrinking_world None).
  - vm_compute; reflexivity.
  - reflexivity.
Defined.

(** * Further properties of the loop *)

Lemma rules_off_while_loading (st : LoopState) (initial elapsed : Z) :
  primary_rule st true initial || fallback_rule st true elapsed = false.
Proof.
  unfold primary_rule, fallback_rule; simpl.
  rewrite !Bool.andb_false_r; reflexivity.
Qed.

(** The two rules, read as arithmetic. *)
Lemma rules_true (st : LoopState) (is_loading : bool) (initial elapsed : Z) :
  primary_rule st is_loading initial
  || fallback_rule st is_loading elapsed = true ->
  is_loading = false
  /\ 5 <= stable_count st
  /\ (initial < last_sources_count st
      \/ (12 <= stable_count st /\ 60 < elapsed)).
Proof.
  unfold primary_rule, fallback_rule; intros H.
  apply Bool.orb_true_iff in H.
  destruct H as [H | H];
    apply Bool.andb_true_iff in H; destruct H as [H H3];
    apply Bool.andb_true_iff in H; destruct H as [H1 H2];
    apply Z.leb_le in H1; apply Z.ltb_lt in H3;
    destruct is_loading; try discriminate.
  - split; [reflexivity | split; [assumption | left; lia]].
  - split; [reflexivity | split; [lia | right; split; assumption]].
Qed.

(** A round always returns; what it does to the counters. *)
Lemma poll_tick_shape (initial_source_count start_time : Z)
    (st : LoopState) (tk : Tick) :
  exists st' is_loading,
    poll_tick initial_source_count start_time st tk
    = Ret (st', primary_rule st' is_loading initial_source_count
                || fallback_rule st' is_loading (elapsed_at start_time tk))
    /\ check_num st' = check_num st + 1
    /\ (stable_count st' = 0
        \/ stable_count st' = stable_count st + 1
        \/ stable_count st' = stable_count st
        \/ (marker_visible (tick_page tk) /\ stable_count st' = 10))
    /\ (busy (tick_page tk) -> ~ marker_visible (tick_page tk) ->
        is_loading = true).
Proof.
  unfold poll_tick.
  assert (Hs : exists st1,
             sample_sources (tick_page tk) (bump st) = Ret st1
             /\ check_num st1 = check_num st + 1
             /\ (stable_count st1 = 0
                 \/ stable_count st1 = stable_count st + 1
                 \/ stable_count st1 = stable_count st)).
  { unfold sample_sources.
    destruct (query_selector_all (tick_page tk) sources_selector)
      as [els | e]; cbn [bind try_except].
    - destruct (negb (len els =? last_sources_count (bump st)));
        cbn [try_except]; eexists; (split; [reflexivity |]); simpl; auto.
    - eexists; split; [reflexivity |]; simpl; auto. }
  destruct Hs as [st1 [H1 [Hc Hst]]].
  unfold bump in H1; rewrite H1; cbn [bind].
  destruct (loading_indicator_returns (tick_page tk)
              DEEP_RESEARCH_LOADING_SELECTORS) as [l1 H2].
  rewrite H2; cbn [bind].
  destruct (spinner_check_returns (tick_page tk) l1) as [l2 H3].
  rewrite H3; cbn [bind].
  destruct (report_source_check_cases (tick_page tk) l2 st1)
    as [H4 | [Hm H4]]; rewrite H4; cbn [bind].
  - exists st1, l2; unfold elapsed_at.
    split; [| split; [exact Hc | split]].
    + destruct (primary_rule st1 l2 initial_source_count);
        [reflexivity |].
      destruct (fallback_rule st1 l2
                  (int_seconds (now_elapsed tk) start_time)); reflexivity.
    + tauto.
    + intros Hb _.
      destruct (busy_is_loading _ Hb) as [l [Hl Hsp]].
      congruence.
  - exists (forced st1), false; unfold elapsed_at.
    split; [| split; [exact Hc | split]].
    + destruct (primary_rule (forced st1) false initial_source_count);
        [reflexivity |].
      destruct (fallback_rule (forced st1) false
                  (int_seconds (now_elapsed tk) start_time)); reflexivity.
    + right; right; right; split; [exact Hm | reflexivity].
    + intros _ Hn; contradiction.
Qed.

Section LoopFacts.

Variables (initial_source_count start_time deadline : Z).

(** The round in which a loop that ends by [break] does so. *)
Lemma poll_loop_break_round (ticks : list Tick) :
  forall (st st' : LoopState),
    poll_loop initial_source_count start_time deadline st ticks
    = Ret (Break, st') ->
    exists before tk after is_loading,
      ticks = (before ++ tk :: after)%list
      /\ check_num st' = check_num st + len before + 1
      /\ now_cond tk < deadline
      /\ primary_rule st' is_loading initial_source_count
         || fallback_rule st' is_loading (elapsed_at start_time tk) = true.
Proof.
  induction ticks as [| tk rest IH]; intros st st' H; [discriminate |].
  simpl in H.
  destruct (now_cond tk <? deadline) eqn:Hd; [| discriminate].
  apply Z.ltb_lt in Hd.
  destruct (poll_tick_shape initial_source_count start_time st tk)
    as [st1 [l [Ht [Hc _]]]].
  rewrite Ht in H; cbn [bind] in H.
  destruct (primary_rule st1 l initial_source_count
            || fallback_rule st1 l (elapsed_at start_time tk)) eqn:Hr.
  - injection H as <-.
    exists [], tk, rest, l; unfold len; simpl.
    repeat split; [lia | assumption | assumption].
  - destruct (IH _ _ H) as [before [tk' [after [l' [-> [Hc' [Hd' Hr']]]]]]].
    exists (tk :: before), tk', after, l'.
    rewrite len_cons.
    repeat split; [lia | assumption | assumption].
Qed.

(** While no round shows the report source, the stability counter stays
    below the round counter. *)
Lemma stable_below_rounds (ticks : list Tick) :
  forall (st st' : LoopState) (exit : LoopExit),
    (forall tk, In tk ticks -> ~ marker_visible (tick_page tk)) ->
    poll_loop initial_source_count start_time deadline st ticks
    = Ret (exit, st') ->
    0 <= stable_count st <= check_num st ->
    0 <= stable_count st' <= check_num st'.
Proof.
  induction ticks as [| tk rest IH]; intros st st' exit Hm H Hinv.
  - injection H as _ <-; exact Hinv.
  - simpl in H.
    destruct (now_cond tk <? deadline);
      [| injection H as _ <-; exact Hinv].
    destruct (poll_tick_shape initial_source_count start_time st tk)
      as [st1 [l [Ht [Hc [Hst _]]]]].
    rewrite Ht in H; cbn [bind] in H.
    assert (Hinv1 : 0 <= stable_count st1 <= check_num st1).
    { destruct Hst as [Hst | [Hst | [Hst | [Hmark _]]]]; try lia.
      exfalso; apply (Hm tk); [left; reflexivity | exact Hmark]. }
    destruct (primary_rule st1 l initial_source_count
              || fallback_rule st1 l (elapsed_at start_time tk)).
    + injection H as _ <-; exact Hinv1.
    + apply (IH _ _ _ (fun tk' Hin => Hm tk' (or_intror Hin)) H Hinv1).
Qed.

End LoopFacts.

Lemma rounds_from_pages (pages : list Page) :
  forall (k : Z) (tk : Tick),
    In tk (rounds_from k pages) -> In (tick_page tk) pages.
Proof.
  induction pages as [| p pages IH]; intros k tk Hin; [destruct Hin |].
  destruct Hin as [<- | Hin]; [left; reflexivity | right; eauto].
Qed.

Lemma rounds_from_clock (pages : list Page) :
  forall (k : Z) (j : nat) (tk : Tick),
    nth_error (rounds_from k pages) j = Some tk ->
    now_cond tk = 10000 * (k + Z.of_nat j).
Proof.
  induction pages as [| p pages IH]; intros k j tk Hj.
  - destruct j; discriminate.
  - destruct j as [| j]; cbn [rounds_from nth_error] in Hj.
    + injection Hj as <-; unfold round_at; cbn [now_cond]; lia.
    + rewrite (IH (k + 1) j tk Hj); lia.
Qed.

Lemma spinner_page_busy : busy spinner_page /\ ~ marker_visible spinner_page.
Proof.
  split.
  - right; exists [shown ""]; split; reflexivity.
  - intros [rs [Hq Hv]]; cbv in Hq; injection Hq as <-; discriminate.
Qed.

(** X1. A run in which every round has a loading indicator or spinner
    visible and no report source never ends by [break], whatever the
    counts do; once a round starts at or after the deadline it ends by
    the deadline. *)
Theorem busy_rounds_end_at_the_deadline :
  forall (initial_source_count start_time deadline : Z)
         (ticks : list Tick) (st st' : LoopState) (exit : LoopExit),
    (forall tk, In tk ticks ->
                busy (tick_page tk) /\ ~ marker_visible (tick_page tk)) ->
    poll_loop initial_source_count start_time deadline st ticks
    = Ret (exit, st') ->
    exit <> Break
    /\ ((exists tk, In tk ticks /\ deadline <= now_cond tk) ->
        exit = Deadline).
Proof.
  intros i s d ticks.
  induction ticks as [| tk rest IH]; intros st st' exit Hb H.
  - injection H as <- _; split; [discriminate |].
    intros [tk [[] _]].
  - simpl in H.
    destruct (now_cond tk <? d) eqn:Hd.
    + apply Z.ltb_lt in Hd.
      destruct (poll_tick_shape i s st tk) as [st1 [l [Ht [_ [_ Hl]]]]].
      destruct (Hb tk (or_introl eq_refl)) as [Hbusy Hnm].
      rewrite (Hl Hbusy Hnm), rules_off_while_loading in Ht.
      rewrite Ht in H; cbn [bind] in H.
      destruct (IH _ _ _ (fun tk' Hin => Hb tk' (or_intror Hin)) H)
        as [Hne Hdl].
      split; [exact Hne |].
      intros [tk' [[<- | Hin] Hlate]]; [lia |].
      apply Hdl; exists tk'; split; assumption.
    + injection H as <- _; split; [discriminate | reflexivity].
Qed.

Lemma busy_rounds_end_at_the_deadline_witness :
  exists st',
    poll_loop 5 0 600000 (initial_state 5) busy_rounds = Ret (Deadline, st').
Proof.
  destruct (poll_loop_returns 5 0 600000 busy_rounds (initial_state 5))
    as [exit [st' H]].
  destruct (busy_rounds_end_at_the_deadline 5 0 600000 busy_rounds
              (initial_state 5) st' exit) as [_ Hd].
  - intros tk Hin.
    apply rounds_from_pages, repeat_spec in Hin; rewrite Hin.
    exact spinner_page_busy.
  - exact H.
  - exists st'; rewrite <- Hd; [exact H |].
    exists (round_at 60 spinner_page); split; [| vm_compute; discriminate].
    unfold busy_rounds; cbn [repeat rounds_from].
    do 60 right; left; reflexivity.
Defined.

(** X2. A loop that ends by [break] does so in a round that started
    before the deadline, with a stability counter of at least 5, and
    either with a count above the baseline or with a stability counter of
    at least 12 more than 60 seconds after the start. *)
Theorem break_needs_a_completion_rule :
  forall (initial_source_count start_time deadline : Z)
         (ticks : list Tick) (st st' : LoopState),
    poll_loop initial_source_count start_time deadline st ticks
    = Ret (Break, st') ->
    exists before tk after,
      ticks = (before ++ tk :: after)%list
      /\ check_num st' = check_num st + len before + 1
      /\ now_cond tk < deadline
      /\ 5 <= stable_count st'
      /\ (initial_source_count < last_sources_count st'
          \/ (12 <= stable_count st' /\ 60 < elapsed_at start_time tk)).
Proof.
  intros i s d ticks st st' H.
  destruct (poll_loop_break_round i s d ticks st st' H)
    as [before [tk [after [l [Hsplit [Hc [Hd Hr]]]]]]].
  destruct (rules_true _ _ _ _ Hr) as [_ [H5 Hrule]].
  exists before, tk, after; auto.
Qed.

Lemma break_needs_a_completion_rule_witness :
  exists before tk after,
    (steady_rounds ++ [round_twelve])%list = (before ++ tk :: after)%list
    /\ check_num (mkLoopState 5 12 12)
       = check_num (initial_state 5) + len before + 1
    /\ now_cond tk < 600000
    /\ 5 <= stable_count (mkLoopState 5 12 12)
    /\ (5 < last_sources_count (mkLoopState 5 12 12)
        \/ (12 <= stable_count (mkLoopState 5 12 12)
            /\ 60 < elapsed_at 0 tk)).
Proof.
  apply (break_needs_a_completion_rule 5 0 600000
           (steady_rounds ++ [round_twelve]) (initial_state 5)).
  vm_compute; reflexivity.
Defined.

(** X3. From the start of the loop, while no round shows the report
    source, the stability counter never exceeds the number of rounds run:
    the loop cannot end by [break] in fewer than 5 rounds, nor in fewer
    than 12 when the last count is not above the baseline. *)
Theorem no_break_before_five_rounds :
  forall (initial_source_count start_time deadline : Z)
         (ticks : list Tick) (st' : LoopState),
    (forall tk, In tk ticks -> ~ marker_visible (tick_page tk)) ->
    poll_loop initial_source_count start_time deadline
      (initial_state initial_source_count) ticks
    = Ret (Break, st') ->
    stable_count st' <= check_num st'
    /\ 5 <= check_num st'
    /\ (last_sources_count st' <= initial_source_count ->
        12 <= check_num st').
Proof.
  intros i s d ticks st' Hm H.
  assert (Hinv : 0 <= stable_count st' <= check_num st').
  { apply (stable_below_rounds i s d ticks (initial_state i) st' Break Hm H).
    simpl; lia. }
  destruct (poll_loop_break_round i s d ticks _ st' H)
    as [before [tk [after [l [_ [_ [_ Hr]]]]]]].
  destruct (rules_true _ _ _ _ Hr) as [_ [H5 Hrule]].
  split; [lia | split; [lia |]].
  intros Hlast; destruct Hrule as [Hnew | [H12 _]]; lia.
Qed.

Lemma no_break_before_five_rounds_witness :
  stable_count (mkLoopState 8 5 9) <= check_num (mkLoopState 8 5 9)
  /\ 5 <= check_num (mkLoopState 8 5 9)
  /\ (last_sources_count (mkLoopState 8 5 9) <= 5 ->
      12 <= check_num (mkLoopState 8 5 9)).
Proof.
  apply (no_break_before_five_rounds 5 0 600000
           (early_rounds ++ change_round :: settled_rounds)).
  - intros tk Hin.
    change (early_rounds ++ change_round :: settled_rounds)%list
      with (rounds_from 0 (repeat (sources_page 5) 3
                           ++ repeat (sources_page 8) 6)) in Hin.
    apply rounds_from_pages in Hin.
    apply in_app_or in Hin.
    destruct Hin as [Hin | Hin]; apply repeat_spec in Hin; rewrite Hin;
      apply sources_page_quiet.
  - vm_compute; reflexivity.
Defined.

(** With rounds that start at least [DEEP_RESEARCH_POLL_INTERVAL] seconds
    apart, counted from the round the loop is in. *)
Lemma rounds_within_timeout (initial_source_count start_time timeout : Z)
    (ticks : list Tick) :
  forall (st st' : LoopState) (exit : LoopExit),
    (forall j tk,
        nth_error ticks j = Some tk ->
        start_time
        + 1000 * DEEP_RESEARCH_POLL_INTERVAL * (check_num st + Z.of_nat j)
        <= now_cond tk) ->
    poll_loop initial_source_count start_time (start_time + 1000 * timeout)
      st ticks
    = Ret (exit, st') ->
    (check_num st' = check_num st
     \/ DEEP_RESEARCH_POLL_INTERVAL * (check_num st' - 1) < timeout)
    /\ (exit = Unfinished -> check_num st' = check_num st + len ticks).
Proof.
  unfold DEEP_RESEARCH_POLL_INTERVAL.
  induction ticks as [| tk rest IH]; intros st st' exit Hclock H.
  - injection H as <- <-; unfold len; simpl; split; [left | intros _]; lia.
  - cbn [poll_loop] in H.
    destruct (now_cond tk <? start_time + 1000 * timeout) eqn:Hd.
    + apply Z.ltb_lt in Hd.
      pose proof (Hclock O tk eq_refl) as H0; simpl Z.of_nat in H0.
      destruct (poll_tick_shape initial_source_count start_time st tk)
        as [st1 [l [Ht [Hc _]]]].
      rewrite Ht in H; cbn [bind] in H.
      destruct (primary_rule st1 l initial_source_count
                || fallback_rule st1 l (elapsed_at start_time tk)).
      * injection H as <- <-; split; [right; lia | discriminate].
      * destruct (IH st1 st' exit) as [Hb Hu]; [| exact H |].
        -- intros j tk' Hj.
           pose proof (Hclock (S j) tk' Hj) as Hj'; lia.
        -- rewrite len_cons; split; [lia |].
           intros He; specialize (Hu He); lia.
    + injection H as <- <-; split; [left; reflexivity | discriminate].
Qed.

(** X4. When every round starts at least the poll interval of 10 seconds
    after the one before, the loop runs at most one round per 10 seconds
    of the timeout: the number of rounds run, less one, times 10 is below
    the timeout, and a list of observed rounds that reaches past the
    timeout always sees the loop end. *)
Theorem rounds_are_bounded_by_the_timeout :
  forall (initial_source_count start_time timeout : Z)
         (ticks : list Tick) (exit : LoopExit) (st' : LoopState),
    0 <= timeout ->
    (forall k tk,
        nth_error ticks k = Some tk ->
        start_time + 1000 * DEEP_RESEARCH_POLL_INTERVAL * Z.of_nat k
        <= now_cond tk) ->
    poll_loop initial_source_count start_time (start_time + 1000 * timeout)
      (initial_state initial_source_count) ticks
    = Ret (exit, st') ->
    DEEP_RESEARCH_POLL_INTERVAL * (check_num st' - 1) < timeout
    /\ (timeout <= DEEP_RESEARCH_POLL_INTERVAL * (len ticks - 1) ->
        exit <> Unfinished).
Proof.
  intros i s timeout ticks exit st' Ht Hclock H.
  destruct (rounds_within_timeout i s timeout ticks (initial_state i)
              st' exit) as [Hb Hu]; [| exact H |].
  - intros j tk Hj; unfold initial_state; cbn [check_num].
    rewrite Z.add_0_l; apply (Hclock j tk Hj).
  - unfold initial_state, DEEP_RESEARCH_POLL_INTERVAL in *.
    cbn [check_num] in Hb, Hu.
    split; [lia |].
    intros Hlong He; specialize (Hu He); lia.
Qed.

Lemma rounds_are_bounded_by_the_timeout_witness :
  DEEP_RESEARCH_POLL_INTERVAL * (check_num (mkLoopState 8 59 60) - 1) < 600
  /\ (600 <= DEEP_RESEARCH_POLL_INTERVAL * (len busy_rounds - 1) ->
      Deadline <> Unfinished).
Proof.
  apply (rounds_are_bounded_by_the_timeout 5 0 600 busy_rounds).
  - lia.
  - intros k tk Hk.
    rewrite (rounds_from_clock _ 0 k tk Hk).
    unfold DEEP_RESEARCH_POLL_INTERVAL; lia.
  - vm_compute; reflexivity.
Defined.

(** * Further properties of the capture *)

Section ChainOrder.

Variables (page : Page) (click : exc unit) (clicked : Page).

Lemma capture_from_strategy1 (t : string) :
  strategy1_chat page chat_selectors = Ret (Some t) ->
  capture page click clicked = Ret (Some t) /\ 100 < len_str t.
Proof.
  intros H1.
  assert (L1 : 100 < len_str t).
  { destruct (strategy1_result page chat_selectors)
      as [H | [t' [H L]]]; congruence. }
  split; [| exact L1].
  unfold capture; rewrite H1; cbn [bind].
  rewrite (py_not_long t 100) by (lia || assumption); cbn [bind].
  rewrite (py_not_long t 100) by (lia || assumption); cbn [bind].
  rewrite (py_not_long t 100) by (lia || assumption); cbn [bind].
  rewrite (py_not_long t 100) by (lia || assumption); reflexivity.
Qed.

Lemma capture_from_strategy2 (t : string) :
  strategy1_chat page chat_selectors = Ret None ->
  strategy2_report page DEEP_RESEARCH_REPORT_SELECTORS None = Ret (Some t) ->
  capture page click clicked = Ret (Some t) /\ 50 < len_str t.
Proof.
  intros H1 H2.
  assert (L2 : 50 < len_str t).
  { destruct (strategy2_result page DEEP_RESEARCH_REPORT_SELECTORS None)
      as [H | [t' [H L]]]; congruence. }
  split; [| exact L2].
  unfold capture; rewrite H1; cbn [bind py_not]; rewrite H2; cbn [bind].
  rewrite (py_not_long t 50) by (lia || assumption); cbn [bind].
  rewrite (py_not_long t 50) by (lia || assumption); cbn [bind].
  rewrite (py_not_long t 50) by (lia || assumption); reflexivity.
Qed.

Lemma capture_from_strategy3 (t : string) :
  strategy1_chat page chat_selectors = Ret None ->
  strategy2_report page DEEP_RESEARCH_REPORT_SELECTORS None = Ret None ->
  strategy3_click click clicked None = Ret (Some t) ->
  capture page click clicked = Ret (Some t) /\ 200 < len_str t.
Proof.
  intros H1 H2 H3.
  assert (L3 : 200 < len_str t).
  { destruct (strategy3_result clicked click None)
      as [H | [t' [H L]]]; congruence. }
  split; [| exact L3].
  unfold capture; rewrite H1; cbn [bind py_not]; rewrite H2; cbn [bind py_not].
  rewrite H3; cbn [bind].
  rewrite (py_not_long t 200) by (lia || assumption); cbn [bind].
  rewrite (py_not_long t 200) by (lia || assumption); reflexivity.
Qed.

(** When the first three strategies find nothing, the chain is the last
    two. *)
Lemma capture_tail :
  strategy1_chat page chat_selectors = Ret None ->
  strategy2_report page DEEP_RESEARCH_REPORT_SELECTORS None = Ret None ->
  strategy3_click click clicked None = Ret None ->
  capture page click clicked
  = (r4 <- strategy4_sources clicked None ;;
     if py_not r4 then strategy5_body clicked r4 else Ret r4).
Proof.
  intros H1 H2 H3.
  unfold capture; rewrite H1; cbn [bind py_not]; rewrite H2; cbn [bind py_not].
  rewrite H3; cbn [bind py_not]; reflexivity.
Qed.

(** Which strategy a returned text comes from: the first of the first
    three that finds one, or else the last two. *)
Lemma capture_origin :
  (exists t, strategy1_chat page chat_selectors = Ret (Some t)
             /\ capture page click clicked = Ret (Some t)
             /\ 100 < len_str t)
  \/ (strategy1_chat page chat_selectors = Ret None
      /\ exists t,
           strategy2_report page DEEP_RESEARCH_REPORT_SELECTORS None
           = Ret (Some t)
           /\ capture page click clicked = Ret (Some t)
           /\ 50 < len_str t)
  \/ (strategy1_chat page chat_selectors = Ret None
      /\ strategy2_report page DEEP_RESEARCH_REPORT_SELECTORS None = Ret None
      /\ exists t,
           strategy3_click click clicked None = Ret (Some t)
           /\ capture page click clicked = Ret (Some t)
           /\ 200 < len_str t)
  \/ (strategy1_chat page chat_selectors = Ret None
      /\ strategy2_report page DEEP_RESEARCH_REPORT_SELECTORS None = Ret None
      /\ strategy3_click click clicked None = Ret None).
Proof.
  destruct (strategy1_result page chat_selectors) as [H1 | [t1 [H1 _]]].
  2:{ left; exists t1; split; [exact H1 |].
      apply capture_from_strategy1; exact H1. }
  right.
  destruct (strategy2_result page DEEP_RESEARCH_REPORT_SELECTORS None)
    as [H2 | [t2 [H2 _]]].
  2:{ left; split; [exact H1 |]; exists t2; split; [exact H2 |].
      apply capture_from_strategy2; assumption. }
  right.
  destruct (strategy3_result clicked click None) as [H3 | [t3 [H3 _]]].
  2:{ left; split; [exact H1 | split; [exact H2 |]].
      exists t3; split; [exact H3 |].
      apply capture_from_strategy3; assumption. }
  right; auto.
Qed.

End ChainOrder.

(** X6. The strategies are tried in order and the first of the first
    three that finds a text decides the result: a text of the chat area is
    returned whatever the report selectors, the click and the page after
    it give; a text of the report selectors is returned when the chat area
    has none; a text read after the click is returned when both have
    none. *)
Theorem earlier_strategy_wins :
  forall (page : Page) (click : exc unit) (clicked : Page) (t : string),
    (strategy1_chat page chat_selectors = Ret (Some t) ->
     capture page click clicked = Ret (Some t))
    /\ (strategy1_chat page chat_selectors = Ret None ->
        strategy2_report page DEEP_RESEARCH_REPORT_SELECTORS None
        = Ret (Some t) ->
        capture page click clicked = Ret (Some t))
    /\ (strategy1_chat page chat_selectors = Ret None ->
        strategy2_report page DEEP_RESEARCH_REPORT_SELECTORS None
        = Ret None ->
        strategy3_click click clicked None = Ret (Some t) ->
        capture page click clicked = Ret (Some t)).
Proof.
  intros page click clicked t.
  split; [| split].
  - intros H1; apply capture_from_strategy1; exact H1.
  - intros H1 H2; apply capture_from_strategy2; assumption.
  - intros H1 H2 H3; apply capture_from_strategy3; assumption.
Qed.

Lemma earlier_strategy_wins_witness :
  capture two_answers_page (Ret tt) broken_page = Ret (Some short_answer)
  /\ capture cards_page (Ret tt) broken_page
     = Ret (Some (first_card ++ blank_line ++ last_card)).
Proof.
  split.
  - apply (proj1 (earlier_strategy_wins two_answers_page (Ret tt)
                    broken_page short_answer)).
    vm_compute; reflexivity.
  - apply (proj1 (proj2 (earlier_strategy_wins cards_page (Ret tt)
                           broken_page
                           (first_card ++ blank_line ++ last_card))));
      vm_compute; reflexivity.
Defined.

Lemma strategy4_cases (clicked : Page) :
  strategy4_sources clicked None = Ret None
  \/ exists panel raw,
       query_selector clicked sources_panel_selector = Ret (Some panel)
       /\ inner_text panel = Ret raw
       /\ strategy4_sources clicked None = Ret (Some (strip raw)).
Proof.
  unfold strategy4_sources.
  case_call (query_selector clicked sources_panel_selector);
    [| left; reflexivity].
  destruct r as [panel |]; simpl; [| left; reflexivity].
  case_call (inner_text panel); [| left; reflexivity].
  right; exists panel, r; auto.
Qed.

(** X7. A text of 50 characters or fewer is never the result of the chat
    area, the report selectors or the opened report: when the capture
    returns one, those three have found nothing, and the text is the
    stripped text of the sources panel or the text of the page body. *)
Theorem short_text_bypasses_first_three :
  forall (page : Page) (click : exc unit) (clicked : Page) (t : string),
    capture page click clicked = Ret (Some t) ->
    len_str t <= 50 ->
    strategy1_chat page chat_selectors = Ret None
    /\ strategy2_report page DEEP_RESEARCH_REPORT_SELECTORS None = Ret None
    /\ strategy3_click click clicked None = Ret None
    /\ ((exists panel raw,
           query_selector clicked sources_panel_selector = Ret (Some panel)
           /\ inner_text panel = Ret raw
           /\ t = strip raw)
        \/ page_inner_text clicked "body" = Ret t).
Proof.
  intros page click clicked t Hc Hlen.
  destruct (capture_origin page click clicked)
    as [[t1 [_ [Hc1 L1]]]
       | [[_ [t2 [_ [Hc2 L2]]]]
         | [[_ [_ [t3 [_ [Hc3 L3]]]]] | [H1 [H2 H3]]]]].
  - exfalso; assert (t1 = t) by congruence; subst; lia.
  - exfalso; assert (t2 = t) by congruence; subst; lia.
  - exfalso; assert (t3 = t) by congruence; subst; lia.
  - split; [exact H1 | split; [exact H2 | split; [exact H3 |]]].
    rewrite (capture_tail page click clicked H1 H2 H3) in Hc.
    unfold strategy5_body in Hc.
    destruct (strategy4_cases clicked) as [H4 | [panel [raw [Hq [Hi H4]]]]];
      rewrite H4 in Hc; cbn [bind] in Hc.
    + change (py_not None) with true in Hc; cbv iota in Hc.
      destruct (page_inner_text clicked "body") as [b | e] eqn:Hb;
        rewrite ?Hb in Hc; cbn [bind try_except] in Hc; [| discriminate].
      right; congruence.
    + destruct (py_not (Some (strip raw))) eqn:Hp; rewrite ?Hp in Hc.
      * destruct (page_inner_text clicked "body") as [b | e] eqn:Hb;
          rewrite ?Hb in Hc; cbn [bind try_except] in Hc.
        -- right; congruence.
        -- left; exists panel, raw; split; [exact Hq | split; [exact Hi |]].
           congruence.
      * left; exists panel, raw; split; [exact Hq | split; [exact Hi |]].
        congruence.
Qed.

Lemma short_text_bypasses_first_three_witness :
  strategy1_chat (blank_page "NotebookLM") chat_selectors = Ret None
  /\ strategy2_report (blank_page "NotebookLM")
       DEEP_RESEARCH_REPORT_SELECTORS None = Ret None
  /\ strategy3_click (Ret tt) (blank_page "NotebookLM") None = Ret None
  /\ ((exists panel raw,
         query_selector (blank_page "NotebookLM") sources_panel_selector
         = Ret (Some panel)
         /\ inner_text panel = Ret raw
         /\ "NotebookLM" = strip raw)
      \/ page_inner_text (blank_page "NotebookLM") "body" = Ret "NotebookLM").
Proof.
  apply (short_text_bypasses_first_three (blank_page "NotebookLM") (Ret tt)
           (blank_page "NotebookLM") "NotebookLM").
  - vm_compute; reflexivity.
  - vm_compute; discriminate.
Defined.

(** X8. When the chat area, the report selectors and the opened report
    give nothing: a sources panel whose stripped text is longer than 50
    is returned, stripped, and the page body is not read; with no sources
    panel element the text of the page body is returned as it was read,
    without stripping. *)
Theorem last_two_strategies :
  forall (page : Page) (click : exc unit) (clicked : Page),
    strategy1_chat page chat_selectors = Ret None ->
    strategy2_report page DEEP_RESEARCH_REPORT_SELECTORS None = Ret None ->
    strategy3_click click clicked None = Ret None ->
    (forall panel raw,
        query_selector clicked sources_panel_selector = Ret (Some panel) ->
        inner_text panel = Ret raw ->
        50 < len_str (strip raw) ->
        capture page click clicked = Ret (Some (strip raw)))
    /\ (forall t,
          query_selector clicked sources_panel_selector = Ret None ->
          page_inner_text clicked "body" = Ret t ->
          capture page click clicked = Ret (Some t)).
Proof.
  intros page click clicked H1 H2 H3.
  rewrite (capture_tail page click clicked H1 H2 H3).
  unfold strategy4_sources, strategy5_body.
  split.
  - intros panel raw Hq Hi Hl.
    rewrite Hq; cbn [bind]; rewrite Hi; cbn [bind try_except].
    rewrite (py_not_long (strip raw) 50) by (lia || assumption).
    reflexivity.
  - intros t Hq Hb.
    rewrite Hq; cbn [bind try_except py_not].
    rewrite Hb; reflexivity.
Qed.

Lemma last_two_strategies_witness :
  capture (blank_page "NotebookLM") (Ret tt) long_panel_page
  = Ret (Some panel_text)
  /\ capture (blank_page "x") (Ret tt) (blank_page "  NotebookLM  ")
     = Ret (Some "  NotebookLM  ").
Proof.
  assert (H1 : forall b, strategy1_chat (blank_page b) chat_selectors
                         = Ret None) by reflexivity.
  assert (H2 : forall b, strategy2_report (blank_page b)
                           DEEP_RESEARCH_REPORT_SELECTORS None = Ret None)
    by reflexivity.
  split.
  - refine (proj1 (last_two_strategies (blank_page "NotebookLM") (Ret tt)
                     long_panel_page (H1 _) (H2 _) _)
              (shown panel_text) panel_text _ _ _);
      vm_compute; reflexivity.
  - refine (proj2 (last_two_strategies (blank_page "x") (Ret tt)
                     (blank_page "  NotebookLM  ") (H1 _) (H2 _) _)
              "  NotebookLM  " _ _);
      vm_compute; reflexivity.
Defined.

Lemma report_texts_clean (elements : list Element) :
  Forall reads_cleanly elements ->
  report_texts elements = Ret (flat_map report_piece elements).
Proof.
  induction 1 as [| el rest Hel _ IH]; [reflexivity |].
  cbn [report_texts flat_map]; unfold report_piece.
  destruct Hel as [Hv | [Hv [raw Hr]]]; rewrite Hv; cbn [bind].
  - rewrite IH; reflexivity.
  - rewrite Hr; cbn [bind].
    destruct (50 <? len_str (strip raw)); rewrite IH; reflexivity.
Qed.

Section Strategy2.

Variable page : Page.

Lemma report_candidates_inv (sel : string) (t : string) (ts : list string) :
  report_candidates page sel = t :: ts ->
  exists elements,
    query_selector_all page sel = Ret elements
    /\ report_texts elements = Ret (t :: ts).
Proof.
  unfold report_candidates.
  case_call (query_selector_all page sel); [| discriminate].
  case_call (report_texts r); [| discriminate].
  intros ->; eauto.
Qed.

Lemma strategy2_skip (sel : string) (rest : list string)
    (report_text : option string) :
  report_candidates page sel = [] ->
  strategy2_report page (sel :: rest) report_text
  = strategy2_report page rest report_text.
Proof.
  unfold report_candidates; simpl.
  case_call (query_selector_all page sel); [| reflexivity].
  destruct r as [| el els]; [reflexivity |].
  case_call (report_texts (el :: els)); [| reflexivity].
  intros ->; reflexivity.
Qed.

Lemma strategy2_hit (sel : string) (rest : list string) (t : string)
    (ts : list string) (report_text : option string) :
  report_candidates page sel = t :: ts ->
  strategy2_report page (sel :: rest) report_text
  = Ret (Some (String.concat blank_line (t :: ts))).
Proof.
  intros H; destruct (report_candidates_inv _ _ _ H) as [els [Hq Ht]].
  cbn [strategy2_report]; rewrite Hq; cbn [bind].
  destruct els as [| el els]; [simpl in Ht; discriminate |].
  rewrite Ht; reflexivity.
Qed.

Lemma strategy2_first (before : list string) (sel : string)
    (after : list string) (t : string) (ts : list string)
    (report_text : option string) :
  (forall s, In s before -> report_candidates page s = []) ->
  report_candidates page sel = t :: ts ->
  strategy2_report page (before ++ sel :: after) report_text
  = Ret (Some (String.concat blank_line (t :: ts))).
Proof.
  induction before as [| s before IH]; intros Hb Hsel.
  - apply strategy2_hit; assumption.
  - rewrite <- app_comm_cons, strategy2_skip
      by (apply Hb; left; reflexivity).
    apply IH; [| assumption].
    intros s' Hin; apply Hb; right; assumption.
Qed.

End Strategy2.

(** X9. Strategy 2 takes the first report selector, in the order of the
    configuration, that has a visible element with a stripped text longer
    than 50, and returns the texts of all such elements of that selector,
    in the order of the page, joined by a blank line; hidden elements and
    shorter texts are left out. *)
Theorem strategy2_joins_first_selector :
  forall (page : Page) (before : list string) (sel : string)
         (after : list string) (elements : list Element)
         (report_text : option string),
    DEEP_RESEARCH_REPORT_SELECTORS = (before ++ sel :: after)%list ->
    (forall s, In s before -> report_candidates page s = []) ->
    query_selector_all page sel = Ret elements ->
    Forall reads_cleanly elements ->
    flat_map report_piece elements <> [] ->
    strategy2_report page DEEP_RESEARCH_REPORT_SELECTORS report_text
    = Ret (Some (String.concat blank_line (flat_map report_piece elements))).
Proof.
  intros page before sel after els rt Hsels Hb Hq Hclean Hne.
  assert (Hc : report_candidates page sel = flat_map report_piece els).
  { unfold report_candidates; rewrite Hq; cbn [bind].
    rewrite (report_texts_clean _ Hclean); reflexivity. }
  destruct (flat_map report_piece els) as [| t ts] eqn:Hp; [congruence |].
  rewrite Hsels; apply strategy2_first; assumption.
Qed.

Lemma strategy2_joins_first_selector_witness :
  strategy2_report cards_page DEEP_RESEARCH_REPORT_SELECTORS None
  = Ret (Some (first_card ++ blank_line ++ last_card)).
Proof.
  apply (strategy2_joins_first_selector cards_page
           [".research-report"; ".report-content"; "[data-report-type]";
            "[role=" ++ quoted "article" ++ "]"]
           ".source-card" []
           [shown first_card; hidden_el (letters 80 "h"); shown "short";
            shown last_card]).
  - reflexivity.
  - intros s Hin; simpl in Hin.
    repeat (destruct Hin as [<- | Hin]; [vm_compute; reflexivity |]).
    destruct Hin.
  - reflexivity.
  - repeat apply Forall_cons; try apply Forall_nil;
      first [ left; reflexivity
            | right; split; [reflexivity | eexists; reflexivity] ].
  - vm_compute; discriminate.
Defined.

(** An element that raises makes the whole scan of its selector raise. *)
Lemma chat_texts_raises (elements : list Element) (el : Element)
    (e : string) :
  In el elements ->
  is_visible el = Raise e
  \/ (is_visible el = Ret true /\ inner_text el = Raise e) ->
  exists e', chat_texts elements = Raise e'.
Proof.
  induction elements as [| el0 rest IH]; intros Hin Hr; [destruct Hin |].
  cbn [chat_texts].
  destruct Hin as [-> | Hin].
  - destruct Hr as [Hv | [Hv Ht]]; rewrite Hv; cbn [bind]; [eauto |].
    rewrite Ht; cbn [bind]; eauto.
  - destruct (IH Hin Hr) as [e' He'].
    case_call (is_visible el0); [| eauto].
    destruct r; [| eauto].
    case_call (inner_text el0); [| eauto].
    rewrite He'; cbn [bind]; eauto.
Qed.

Lemma report_texts_raises (elements : list Element) (el : Element)
    (e : string) :
  In el elements ->
  is_visible el = Raise e
  \/ (is_visible el = Ret true /\ inner_text el = Raise e) ->
  exists e', report_texts elements = Raise e'.
Proof.
  induction elements as [| el0 rest IH]; intros Hin Hr; [destruct Hin |].
  cbn [report_texts].
  destruct Hin as [-> | Hin].
  - destruct Hr as [Hv | [Hv Ht]]; rewrite Hv; cbn [bind]; [eauto |].
    rewrite Ht; cbn [bind]; eauto.
  - destruct (IH Hin Hr) as [e' He'].
    case_call (is_visible el0); [| eauto].
    destruct r; [| eauto].
    case_call (inner_text el0); [| eauto].
    destruct (50 <? len_str (strip r)); [| eauto].
    rewrite He'; cbn [bind]; eauto.
Qed.

(** X10. In strategies 1 and 2 one element that raises, on [is_visible]
    or on [inner_text] once visible, discards its whole selector: the
    texts already collected for that selector are dropped and the next
    selector is tried. *)
Theorem raising_element_discards_selector :
  forall (page : Page) (sel : string) (rest : list string)
         (elements : list Element) (el : Element) (e : string)
         (report_text : option string),
    query_selector_all page sel = Ret elements ->
    In el elements ->
    is_visible el = Raise e
    \/ (is_visible el = Ret true /\ inner_text el = Raise e) ->
    strategy1_chat page (sel :: rest) = strategy1_chat page rest
    /\ strategy2_report page (sel :: rest) report_text
       = strategy2_report page rest report_text.
Proof.
  intros page sel rest els el e rt Hq Hin Hr.
  split.
  - apply strategy1_skip; unfold chat_candidates; rewrite Hq; cbn [bind].
    destruct (chat_texts_raises els el e Hin Hr) as [e' ->]; reflexivity.
  - apply strategy2_skip; unfold report_candidates; rewrite Hq; cbn [bind].
    destruct (report_texts_raises els el e Hin Hr) as [e' ->]; reflexivity.
Qed.

Lemma raising_element_discards_selector_witness :
  strategy1_chat flaky_answers_page chat_selectors
  = Ret (Some short_answer).
Proof.
  transitivity (strategy1_chat flaky_answers_page (tl chat_selectors));
    [| vm_compute; reflexivity].
  apply (proj1 (raising_element_discards_selector flaky_answers_page
                  ".to-user-container .message-text-content"
                  (tl chat_selectors) [shown long_answer; detached_el]
                  detached_el "Element is not attached to the DOM" None
                  eq_refl (or_intror (or_introl eq_refl))
                  (or_introl eq_refl))).
Defined.

(** * Further properties of the locator resolver *)

Lemma resolves_waiting_dec (page : Page) (timeout : Z) (sel : string) :
  (exists e, resolves_waiting page timeout sel e)
  \/ (forall e, ~ resolves_waiting page timeout sel e).
Proof.
  unfold resolves_waiting.
  destruct (wait_for_selector page sel timeout) as [[e |] | m].
  - left; eauto.
  - right; intros e; discriminate.
  - right; intros e; discriminate.
Qed.

Lemma resolves_now_dec (page : Page) (sel : string) :
  (exists e, resolves_now page sel e)
  \/ (forall e, ~ resolves_now page sel e).
Proof.
  unfold resolves_now.
  destruct (query_selector page sel) as [[e |] | m].
  - destruct (is_visible e) as [[|] | m] eqn:Hv.
    + left; eauto.
    + right; intros e' [Hq Hv']; congruence.
    + right; intros e' [Hq Hv']; congruence.
  - right; intros e [Hq _]; discriminate.
  - right; intros e [Hq _]; discriminate.
Qed.

(** X11. What the resolvers return is all or nothing, and a returned pair
    is sound: either [(None, None)], and then no selector of the list
    resolves; or an element together with its selector, and then that
    selector is in the list, it resolves to that element, visible for
    [find_element_quick], and no selector before it resolves. *)
Theorem resolver_result_is_sound :
  forall (page : Page) (description : string) (timeout : Z)
         (selectors : list string)
         (element : option Element) (selector : option string),
    (find_element page selectors description timeout
     = Ret (element, selector) ->
     (element = None /\ selector = None
      /\ forall s, In s selectors ->
                   forall e, ~ resolves_waiting page timeout s e)
     \/ exists before s after e,
          selectors = (before ++ s :: after)%list
          /\ element = Some e /\ selector = Some s
          /\ resolves_waiting page timeout s e
          /\ forall s', In s' before ->
                        forall e', ~ resolves_waiting page timeout s' e')
    /\ (find_element_quick page selectors description
        = Ret (element, selector) ->
        (element = None /\ selector = None
         /\ forall s, In s selectors -> forall e, ~ resolves_now page s e)
        \/ exists before s after e,
             selectors = (before ++ s :: after)%list
             /\ element = Some e /\ selector = Some s
             /\ resolves_now page s e
             /\ forall s', In s' before ->
                           forall e', ~ resolves_now page s' e').
Proof.
  intros page d timeout sels oe os; split.
  - induction sels as [| s rest IH]; intros H.
    + injection H as <- <-; left; repeat split; intros s [].
    + destruct (resolves_waiting_dec page timeout s) as [[e He] | Hno].
      * rewrite (find_element_hit page d timeout s rest e He) in H.
        injection H as <- <-.
        right; exists [], s, rest, e; repeat split; auto;
          try (intros s' []).
      * rewrite (find_element_skip page d timeout s rest Hno) in H.
        destruct (IH H) as [[-> [-> Hall]]
                           | [before [s0 [after [e [-> [-> [-> [He Hb]]]]]]]]].
        -- left; repeat split.
           intros s' [<- | Hin]; [exact Hno | apply Hall; exact Hin].
        -- right; exists (s :: before), s0, after, e; repeat split; auto.
           intros s' [<- | Hin]; [exact Hno | apply Hb; exact Hin].
  - induction sels as [| s rest IH]; intros H.
    + injection H as <- <-; left; repeat split; intros s [].
    + destruct (resolves_now_dec page s) as [[e He] | Hno].
      * rewrite (find_element_quick_hit page d s rest e He) in H.
        injection H as <- <-.
        right; exists [], s, rest, e; repeat split; try apply He;
          try (intros s' []).
      * rewrite (find_element_quick_skip page d s rest Hno) in H.
        destruct (IH H) as [[-> [-> Hall]]
                           | [before [s0 [after [e [-> [-> [-> [He Hb]]]]]]]]].
        -- left; repeat split.
           intros s' [<- | Hin]; [exact Hno | apply Hall; exact Hin].
        -- right; exists (s :: before), s0, after, e; repeat split;
             try apply He.
           intros s' [<- | Hin]; [exact Hno | apply Hb; exact Hin].
Qed.

Lemma resolver_result_is_sound_witness :
  (Some second_button = None /\ Some "#primary" = None
   /\ forall s, In s candidates ->
                forall e, ~ resolves_now candidates_page s e)
  \/ exists before s after e,
       candidates = (before ++ s :: after)%list
       /\ Some second_button = Some e /\ Some "#primary" = Some s
       /\ resolves_now candidates_page s e
       /\ forall s', In s' before ->
                     forall e', ~ resolves_now candidates_page s' e'.
Proof.
  apply (proj2 (resolver_result_is_sound candidates_page "mode toggle" 0
                  candidates (Some second_button) (Some "#primary"))).
  vm_compute; reflexivity.
Defined.

(** * Further properties of the whole call *)

(** How a call comes to its outcome: by one of the early failures, or by
    the capture after a loop that ended. *)
Lemma run_cases (w : World) (timeout : option Z) (o : Outcome) :
  run_deep_research w timeout = Some o ->
  (exists msg, o = failure msg
               /\ (is_authenticated w = false
                   \/ ui_steps w = Raise msg
                   \/ ui_steps w = Ret false
                   \/ query_selector_all (start_page w)
                        initial_sources_selector = Raise msg))
  \/ exists elements exit st,
       is_authenticated w = true
       /\ ui_steps w = Ret true
       /\ query_selector_all (start_page w) initial_sources_selector
          = Ret elements
       /\ poll_loop (len elements) (start_time w)
            (start_time w + 1000 * effective_timeout timeout)
            (initial_state (len elements)) (ticks w)
          = Ret (exit, st)
       /\ exit <> Unfinished
       /\ capture_results w (len elements) st = Ret o.
Proof.
  unfold run_deep_research, research_body, wait_for_completion; intros Hrun.
  destruct (is_authenticated w); cbn [negb] in Hrun;
    [| injection Hrun as <-; left; eexists; eauto].
  destruct (ui_steps w) as [[|] | e]; cbn [bind negb] in Hrun;
    [| injection Hrun as <-; left; eexists; eauto
     | injection Hrun as <-; left; eexists; eauto].
  destruct (query_selector_all (start_page w) initial_sources_selector)
    as [elements | e]; cbn [bind] in Hrun;
    [| injection Hrun as <-; left; eexists; eauto 6].
  destruct (poll_loop_returns (len elements) (start_time w)
              (start_time w + 1000 * effective_timeout timeout)
              (ticks w) (initial_state (len elements)))
    as [exit [st Hloop]].
  rewrite Hloop in Hrun; cbn [bind] in Hrun.
  destruct (capture_results_outcome w (len elements) st)
    as [r [_ [_ Ho]]].
  right; exists elements, exit, st.
  destruct exit; try discriminate;
    rewrite Ho in Hrun |- *; cbn [bind] in Hrun;
    injection Hrun as <-; repeat split; congruence.
Qed.

(** X5. The shape of a returned dict. A success carries no error, a
    report that is not empty, the item counts and the elapsed time, and
    its total less its count of new items is the baseline; a failure
    carries an error and neither a report nor a total. So the caller's
    lookup of the report after testing for success always finds one. *)
Theorem outcome_shape :
  forall (w : World) (timeout : option Z) (o : Outcome),
    run_deep_research w timeout = Some o ->
    (success o = true ->
     error o = None
     /\ (exists t, report o = Some t /\ t <> "")
     /\ elapsed_seconds o = Some (int_seconds (end_time w) (start_time w))
     /\ exists elements c n,
          query_selector_all (start_page w) initial_sources_selector
          = Ret elements
          /\ sources_count o = Some c
          /\ total_sources o = Some n
          /\ n - c = len elements)
    /\ (success o = false ->
        (exists msg, error o = Some msg)
        /\ report o = None
        /\ total_sources o = None).
Proof.
  intros w timeout o Hrun.
  destruct (run_cases w timeout o Hrun)
    as [[msg [-> _]]
       | [elements [exit [st [_ [_ [Hq [_ [_ Hc]]]]]]]]].
  - split; [discriminate |].
    intros _; simpl; eauto.
  - destruct (capture_results_outcome w (len elements) st)
      as [r [_ [_ Ho]]].
    rewrite Ho in Hc; injection Hc as <-.
    destruct (py_not r) eqn:Hpy; simpl.
    + split; [discriminate |].
      intros _; eauto.
    + split; [| discriminate].
      intros _; split; [reflexivity |].
      split.
      * destruct r as [[| c t] |]; try discriminate.
        exists (String c t); split; [reflexivity | discriminate].
      * split; [reflexivity |].
        exists elements, (last_sources_count st - len elements),
          (last_sources_count st).
        repeat split; [exact Hq | lia].
Qed.

Lemma outcome_shape_witness :
  exists t,
    report (mkOutcome true None (Some 3) (Some 8) (Some 600)
              (Some "NotebookLM")) = Some t
    /\ t <> "".
Proof.
  destruct (outcome_shape busy_world None
              (mkOutcome true None (Some 3) (Some 8) (Some 600)
                 (Some "NotebookLM")))
    as [Hs _].
  - vm_compute; reflexivity.
  - destruct (Hs eq_refl) as [_ [Hr _]]; exact Hr.
Defined.

(** A success comes from a signed-in session whose request went out, and
    has a report that is not empty. *)
Lemma success_has_report (w : World) (timeout : option Z) (o : Outcome) :
  run_deep_research w timeout = Some o ->
  success o = true ->
  is_authenticated w = true
  /\ ui_steps w = Ret true
  /\ exists t, report o = Some t /\ t <> "".
Proof.
  intros Hrun Hs.
  destruct (run_cases w timeout o Hrun)
    as [[msg [-> _]]
       | [elements [exit [st [Ha [Hu [_ [_ [_ Hc]]]]]]]]];
    [discriminate |].
  split; [exact Ha | split; [exact Hu |]].
  destruct (capture_results_outcome w (len elements) st) as [r [_ [_ Ho]]].
  rewrite Ho in Hc; injection Hc as <-.
  destruct (py_not r) eqn:Hpy; [discriminate |]; simpl.
  destruct r as [[| c t] |]; try discriminate.
  exists (String c t); split; [reflexivity | discriminate].
Qed.

(** * [main] *)

(** A call whose loop ends within the observed rounds returns a dict. *)
Lemma run_returns (w : World) (timeout : option Z) :
  loop_ends w (effective_timeout timeout) ->
  exists o, run_deep_research w timeout = Some o.
Proof.
  intros Hends.
  unfold run_deep_research, research_body, wait_for_completion.
  destruct (is_authenticated w); cbn [negb]; [| eauto].
  destruct (ui_steps w) as [[|] | e]; cbn [bind negb]; [| eauto | eauto].
  destruct (query_selector_all (start_page w) initial_sources_selector)
    as [elements | e] eqn:Hq; cbn [bind]; [| eauto].
  destruct (poll_loop_returns (len elements) (start_time w)
              (start_time w + 1000 * effective_timeout timeout)
              (ticks w) (initial_state (len elements)))
    as [exit [st Hloop]].
  pose proof (Hends elements exit st Hq Hloop) as Hne.
  rewrite Hloop; cbn [bind].
  destruct (capture_results_outcome w (len elements) st)
    as [r [_ [_ Ho]]].
  destruct exit; [| | congruence]; rewrite Ho; cbn [bind]; eauto.
Qed.

(** X12. For arguments that [parse_args] has accepted (a command line it
    refuses ends the process with status 2 before any of this runs), and
    a poll loop that ends within the observed rounds, [main] returns exit
    code 0 or 1 and does not fail at the lookup of the report. Outside
    discovery mode it returns 0 exactly when a notebook URL was found, a
    topic that is not empty was given and the call of [run_deep_research]
    returned a success, which then comes from a signed-in session and
    carries a report that is not empty. *)
Theorem main_exit_code :
  forall (args : Args) (library : NotebookLibrary)
         (world : string -> string -> string -> World),
    (forall url topic,
        resolve_notebook_url args library = Some url ->
        args_discover args = false ->
        args_topic args = Some topic ->
        topic <> "" ->
        loop_ends (world topic url (args_mode args)) (args_timeout args)) ->
    exists code,
      main args library world = Some (Ret code)
      /\ (code = 0 \/ code = 1)
      /\ (args_discover args = false ->
          (code = 0 <->
           exists url topic o t,
             resolve_notebook_url args library = Some url
             /\ args_topic args = Some topic
             /\ topic <> ""
             /\ run_deep_research (world topic url (args_mode args))
                  (Some (args_timeout args)) = Some o
             /\ success o = true
             /\ report o = Some t
             /\ t <> ""
             /\ is_authenticated (world topic url (args_mode args)) = true)).
Proof.
  intros args library world Hends.
  unfold main.
  destruct (resolve_notebook_url args library) as [url |] eqn:Hurl.
  2:{ exists 1; split; [reflexivity | split; [right; reflexivity |]].
      intros _; split; [discriminate |].
      intros [u [tp [o [t [Hu _]]]]]; discriminate. }
  destruct (args_discover args) eqn:Hdisc.
  { exists 0; split; [reflexivity | split; [left; reflexivity |]].
    discriminate. }
  destruct (args_topic args) as [[| c topic] |] eqn:Htopic; cbn [py_not].
  - exists 1; split; [reflexivity | split; [right; reflexivity |]].
    intros _; split; [discriminate |].
    intros [u [tp [o [t [_ [Ht [Hne _]]]]]]]; congruence.
  - destruct (run_returns (world (String c topic) url (args_mode args))
                (Some (args_timeout args)))
      as [o Hrun].
    { apply (Hends url (String c topic) eq_refl eq_refl eq_refl).
      discriminate. }
    rewrite Hrun.
    destruct (success o) eqn:Hs.
    + destruct (success_has_report _ _ _ Hrun Hs) as [Ha [_ [t [Hr Hne]]]].
      rewrite Hr.
      exists 0; split; [reflexivity | split; [left; reflexivity |]].
      intros _; split; [| reflexivity].
      intros _; exists url, (String c topic), o, t.
      repeat split; try assumption; discriminate.
    + exists 1; split; [reflexivity | split; [right; reflexivity |]].
      intros _; split; [discriminate |].
      intros [u [tp [o' [t [Hu [Ht [_ [Hrun' [Hs' _]]]]]]]]].
      injection Hu as <-; injection Ht as <-.
      rewrite Hrun in Hrun'; injection Hrun' as <-; congruence.
  - exists 1; split; [reflexivity | split; [right; reflexivity |]].
    intros _; split; [discriminate |].
    intros [u [tp [o [t [_ [Ht _]]]]]]; discriminate.
Qed.

Lemma main_exit_code_witness :
  exists code,
    main (research_args None (Some "abc")) small_library
      (fun _ _ _ => busy_world) = Some (Ret code)
    /\ (code = 0 \/ code = 1).
Proof.
  destruct (main_exit_code (research_args None (Some "abc")) small_library
              (fun _ _ _ => busy_world))
    as [code [Hmain [Hcode _]]].
  - intros url topic _ _ _ _ elements exit st Hq Hloop.
    vm_compute in Hq; injection Hq as <-.
    vm_compute in Hloop; injection Hloop as <- _; discriminate.
  - exists code; split; [exact Hmain | exact Hcode].
Defined.

(** X13. How [main] finds the notebook. A URL given on the command line
    is used and the library is not asked. Without one, an id that the
    library does not know ends [main] with exit code 1, also when an
    active notebook exists; an id whose entry has an empty URL, like no
    id at all, leads to the active notebook. *)
Theorem main_notebook_lookup :
  forall (args : Args) (world : string -> string -> string -> World),
    (forall library library' url,
        args_notebook_url args = Some url -> url <> "" ->
        resolve_notebook_url args library = Some url
        /\ main args library world = main args library' world)
    /\ (forall library id,
          py_not (args_notebook_url args) = true ->
          args_notebook_id args = Some id -> id <> "" ->
          get_notebook library id = None ->
          main args library world = Some (Ret 1))
    /\ (forall library id notebook,
          py_not (args_notebook_url args) = true ->
          args_notebook_id args = Some id -> id <> "" ->
          get_notebook library id = Some notebook ->
          resolve_notebook_url args library
          = if py_not (Some (nb_url notebook))
            then option_map nb_url (get_active_notebook library)
            else Some (nb_url notebook))
    /\ (forall library,
          py_not (args_notebook_url args) = true ->
          py_not (args_notebook_id args) = true ->
          resolve_notebook_url args library
          = option_map nb_url (get_active_notebook library)).
Proof.
  intros args world.
  split; [| split; [| split]].
  - intros library library' url Hurl Hne.
    assert (Hres : forall l, resolve_notebook_url args l = Some url).
    { intros l; unfold resolve_notebook_url; rewrite Hurl.
      destruct url; [congruence | reflexivity]. }
    split; [apply Hres |].
    unfold main; rewrite !Hres; reflexivity.
  - intros library id Hno Hid Hne Hget.
    unfold main, resolve_notebook_url.
    rewrite Hno, Hid, Hget.
    destruct id; [congruence | reflexivity].
  - intros library id notebook Hno Hid Hne Hget.
    unfold resolve_notebook_url.
    rewrite Hno, Hid, Hget.
    destruct id; [congruence |]; cbn [py_not negb andb].
    destruct (py_not (Some (nb_url notebook))); [| reflexivity].
    destruct (get_active_notebook library); reflexivity.
  - intros library Hno Hid.
    unfold resolve_notebook_url.
    rewrite Hno, Hid; cbn [negb andb]; rewrite Hno.
    destruct (get_active_notebook library); reflexivity.
Qed.

Lemma main_notebook_lookup_witness :
  main (research_args None (Some "xyz")) small_library
    (fun _ _ _ => busy_world) = Some (Ret 1)
  /\ resolve_notebook_url (research_args None (Some "old")) stale_library
     = Some "https://notebooklm.google.com/notebook/abc".
Proof.
  destruct (main_notebook_lookup (research_args None (Some "xyz"))
              (fun _ _ _ => busy_world)) as [_ [Hunknown _]].
  destruct (main_notebook_lookup (research_args None (Some "old"))
              (fun _ _ _ => busy_world)) as [_ [_ [Hstale _]]].
  split.
  - apply (Hunknown small_library "xyz");
      [reflexivity | reflexivity | discriminate | reflexivity].
  - rewrite (Hstale stale_library "old" (mkNotebook "" "Old"));
      [reflexivity | reflexivity | reflexivity | discriminate | reflexivity].
Defined.

(** * Steps 3 and 6 *)

Lemma first_visible_reaches (before : list Element) (btn : Element)
    (after : list Element) :
  (forall b, In b before -> is_visible b = Ret false) ->
  is_visible btn = Ret true ->
  first_visible (before ++ btn :: after) = Ret (Some btn).
Proof.
  induction before as [| b before IH]; intros Hb Hv.
  - cbn [app first_visible]; rewrite Hv; reflexivity.
  - rewrite <- app_comm_cons; cbn [first_visible].
    rewrite (Hb b (or_introl eq_refl)); cbn [bind].
    apply IH; [| exact Hv].
    intros b' Hin; apply Hb; right; exact Hin.
Qed.

Lemma first_visible_found (btns : list Element) (btn : Element) :
  first_visible btns = Ret (Some btn) ->
  exists before after,
    btns = (before ++ btn :: after)%list
    /\ (forall b, In b before -> is_visible b = Ret false)
    /\ is_visible btn = Ret true.
Proof.
  induction btns as [| b rest IH]; intros H; [discriminate |].
  cbn [first_visible] in H.
  destruct (is_visible b) as [[|] | m] eqn:Hv; cbn [bind] in H;
    [| | discriminate].
  - injection H as <-; exists [], rest; repeat split; auto.
    intros b' [].
  - destruct (IH H) as [before [after [-> [Hb Hbtn]]]].
    exists (b :: before), after; repeat split; auto.
    intros b' [<- | Hin]; [exact Hv | apply Hb; exact Hin].
Qed.

Section Submit.

Variable page : Page.

Lemma reaches_dec (sel : string) :
  (exists btn, reaches page sel btn)
  \/ (forall btn, ~ reaches page sel btn).
Proof.
  unfold reaches.
  destruct (query_selector_all page sel) as [btns | m] eqn:Hq.
  - destruct (first_visible btns) as [[btn |] | m] eqn:Hf.
    + left; exists btn.
      destruct (first_visible_found _ _ Hf) as [before [after [-> H]]].
      exists before, after; split; [reflexivity | exact H].
    + right; intros btn [before [after [Hq' [Hb Hv]]]].
      injection Hq' as ->.
      rewrite (first_visible_reaches _ _ _ Hb Hv) in Hf; discriminate.
    + right; intros btn [before [after [Hq' [Hb Hv]]]].
      injection Hq' as ->.
      rewrite (first_visible_reaches _ _ _ Hb Hv) in Hf; discriminate.
  - right; intros btn [before [after [Hq' _]]]; discriminate.
Qed.

Lemma find_submit_hit (sel : string) (rest : list string) (btn : Element) :
  reaches page sel btn ->
  find_submit page (sel :: rest) = Ret (Some btn).
Proof.
  intros [before [after [Hq [Hb Hv]]]].
  cbn [find_submit]; rewrite Hq; cbn [bind].
  rewrite (first_visible_reaches _ _ _ Hb Hv); reflexivity.
Qed.

Lemma find_submit_skip (sel : string) (rest : list string) :
  (forall btn, ~ reaches page sel btn) ->
  find_submit page (sel :: rest) = find_submit page rest.
Proof.
  intros Hno; cbn [find_submit].
  destruct (query_selector_all page sel) as [btns | m] eqn:Hq;
    cbn [bind try_except]; [| reflexivity].
  destruct (first_visible btns) as [[btn |] | m] eqn:Hf;
    cbn [bind try_except]; try reflexivity.
  exfalso; apply (Hno btn).
  destruct (first_visible_found _ _ Hf) as [before [after [-> H]]].
  exists before, after; split; [exact Hq | exact H].
Qed.

(** The button the scan of the selectors ends with. *)
Lemma find_submit_spec (sels : list string) :
  (exists l1 sel l2 btn,
      sels = (l1 ++ sel :: l2)%list
      /\ reaches page sel btn
      /\ (forall s, In s l1 -> forall b, ~ reaches page s b)
      /\ find_submit page sels = Ret (Some btn))
  \/ ((forall s, In s sels -> forall b, ~ reaches page s b)
      /\ find_submit page sels = Ret None).
Proof.
  induction sels as [| sel rest IH].
  - right; split; [intros s [] | reflexivity].
  - destruct (reaches_dec sel) as [[btn Hr] | Hno].
    + left; exists [], sel, rest, btn.
      split; [reflexivity | split; [exact Hr | split]].
      * intros s [].
      * apply find_submit_hit; exact Hr.
    + rewrite (find_submit_skip sel rest Hno).
      destruct IH as [[l1 [s0 [l2 [btn [-> [Hr [Hb Hf]]]]]]] | [Hall Hf]].
      * left; exists (sel :: l1), s0, l2, btn.
        split; [reflexivity | split; [exact Hr | split; [| exact Hf]]].
        intros s [<- | Hin]; [exact Hno | apply Hb; exact Hin].
      * right; split; [| exact Hf].
        intros s [<- | Hin]; [exact Hno | apply Hall; exact Hin].
Qed.

End Submit.

(** X14. Step 6 clicks the first visible button of the first submit
    selector, in the order of the list, whose scan reaches a visible
    button (the buttons before it seen hidden, none of them raising), and
    presses Enter exactly when no selector has one; a selector whose
    query or scan raises is passed over, and the step decides without
    raising. *)
Theorem submit_clicks_first_visible_button :
  forall (page : Page),
    (exists action, submit_action page = Ret action)
    /\ (forall btn,
          submit_action page = Ret (ClickButton btn) <->
          exists l1 sel l2,
            submit_selectors = (l1 ++ sel :: l2)%list
            /\ reaches page sel btn
            /\ forall s, In s l1 -> forall b, ~ reaches page s b)
    /\ (submit_action page = Ret PressEnter <->
        forall s, In s submit_selectors -> forall b, ~ reaches page s b).
Proof.
  intros page; unfold submit_action.
  destruct (find_submit_spec page submit_selectors)
    as [[l1 [sel [l2 [btn [Hs [Hr [Hb Hf]]]]]]] | [Hall Hf]];
    rewrite Hf; cbn [bind].
  - split; [eauto | split].
    + intros btn'; split.
      * intros H; injection H as <-; exists l1, sel, l2; auto.
      * intros [l1' [sel' [l2' [Hs' [Hr' Hb']]]]].
        rewrite Hs' in Hf.
        assert (Hf' : find_submit page (l1' ++ sel' :: l2')
                      = Ret (Some btn')).
        { clear Hf Hs Hs'; induction l1' as [| s l1' IH].
          - apply find_submit_hit; exact Hr'.
          - rewrite <- app_comm_cons, find_submit_skip
              by (apply Hb'; left; reflexivity).
            apply IH; intros s' Hin; apply Hb'; right; exact Hin. }
        congruence.
    + split; [discriminate |].
      intros Hall; exfalso; apply (Hall sel) with (b := btn); [| exact Hr].
      rewrite Hs; apply in_or_app; right; left; reflexivity.
  - split; [eauto | split].
    + intros btn'; split; [discriminate |].
      intros [l1' [sel' [l2' [Hs' [Hr' _]]]]].
      exfalso; apply (Hall sel') with (b := btn'); [| exact Hr'].
      rewrite Hs'; apply in_or_app; right; left; reflexivity.
    + split; [intros _; exact Hall | reflexivity].
Qed.

Lemma submit_clicks_first_visible_button_witness :
  submit_action submit_page = Ret (ClickButton send_button).
Proof.
  apply (proj1 (proj2 (submit_clicks_first_visible_button submit_page))
           send_button).
  exists ["button[aria-label*=" ++ quoted "submit" ++ " i]";
          "button[aria-label*=" ++ quoted "search" ++ " i]"],
    ("button[aria-label*=" ++ quoted "send" ++ " i]"),
    (("button[type=" ++ quoted "submit" ++ "]") :: arrow_selectors).
  split; [reflexivity | split].
  - exists [hidden_el "Send"], [shown "Send again"].
    split; [reflexivity | split; [| reflexivity]].
    intros b [<- | []]; reflexivity.
  - intros s Hin b [before [after [Hq _]]].
    simpl in Hin; destruct Hin as [<- | [<- | []]];
      vm_compute in Hq; injection Hq as Hq;
      destruct before; discriminate.
Defined.

Lemma scan_inputs_hit (inp : InputHandle) (rest : list InputHandle)
    (placeholder : string) :
  accepted inp placeholder ->
  scan_inputs (inp :: rest)
  = Ret (Some (input_element inp,
               "input[placeholder=" ++ quoted placeholder ++ "]")).
Proof.
  intros [Hv [[value [Hp ->]] Hs]].
  cbn [scan_inputs]; rewrite Hv; cbn [bind]; rewrite Hp; cbn [bind].
  rewrite Hs; reflexivity.
Qed.

Lemma scan_inputs_skip (inp : InputHandle) (rest : list InputHandle) :
  (forall placeholder, ~ accepted inp placeholder) ->
  scan_inputs (inp :: rest) = scan_inputs rest.
Proof.
  intros Hno; cbn [scan_inputs].
  destruct (is_visible (input_element inp)) as [[|] | m] eqn:Hv;
    cbn [bind try_except]; try reflexivity.
  destruct (get_placeholder inp) as [value | m] eqn:Hp;
    cbn [bind try_except]; try reflexivity.
  destruct (search_placeholder (or_empty value)) eqn:Hs;
    cbn [bind try_except]; try reflexivity.
  exfalso; apply (Hno (or_empty value)).
  split; [exact Hv | split; [eauto | exact Hs]].
Qed.

Lemma scan_inputs_first (before : list InputHandle) (inp : InputHandle)
    (after : list InputHandle) (placeholder : string) :
  (forall i, In i before -> forall p, ~ accepted i p) ->
  accepted inp placeholder ->
  scan_inputs (before ++ inp :: after)
  = Ret (Some (input_element inp,
               "input[placeholder=" ++ quoted placeholder ++ "]")).
Proof.
  induction before as [| i before IH]; intros Hb Ha.
  - apply scan_inputs_hit; exact Ha.
  - rewrite <- app_comm_cons, scan_inputs_skip
      by (apply Hb; left; reflexivity).
    apply IH; [| exact Ha].
    intros i' Hin; apply Hb; right; exact Hin.
Qed.

Lemma scan_inputs_none (handles : list InputHandle) :
  (forall i, In i handles -> forall p, ~ accepted i p) ->
  scan_inputs handles = Ret None.
Proof.
  induction handles as [| i handles IH]; intros Hno; [reflexivity |].
  rewrite scan_inputs_skip by (apply Hno; left; reflexivity).
  apply IH; intros i' Hin; apply Hno; right; exact Hin.
Qed.

(** X15. Step 3 looks for the search input in three places, in this
    order: the modal selectors, the configured selectors, and a scan of
    all inputs. A match of an earlier place is returned without the later
    ones being consulted. The scan takes the first visible input whose
    placeholder contains "search" and "web" in any case, skips an input
    that raises, and names the input by a selector made from its
    placeholder; it gives [(None, None)] when no input is accepted. An
    exception of the query for the inputs is not caught by the step. *)
Theorem search_input_order :
  forall (page : Page) (inputs : exc (list InputHandle)),
    (forall e s,
        find_element page modal_search_selectors "modal search input" 5000
        = Ret (Some e, Some s) ->
        locate_search_input page inputs = Ret (Some e, Some s))
    /\ (find_element page modal_search_selectors "modal search input" 5000
        = Ret (None, None) ->
        (forall e s,
            find_element page DEEP_RESEARCH_INPUT_SELECTORS "search input"
              10000 = Ret (Some e, Some s) ->
            locate_search_input page inputs = Ret (Some e, Some s))
        /\ (find_element page DEEP_RESEARCH_INPUT_SELECTORS "search input"
              10000 = Ret (None, None) ->
            (forall m, inputs = Raise m ->
                       locate_search_input page inputs = Raise m)
            /\ (forall before inp after placeholder,
                  inputs = Ret (before ++ inp :: after)%list ->
                  (forall i, In i before -> forall p, ~ accepted i p) ->
                  accepted inp placeholder ->
                  locate_search_input page inputs
                  = Ret (Some (input_element inp),
                         Some ("input[placeholder=" ++ quoted placeholder
                               ++ "]")))
            /\ (forall handles,
                  inputs = Ret handles ->
                  (forall i, In i handles -> forall p, ~ accepted i p) ->
                  locate_search_input page inputs = Ret (None, None)))).
Proof.
  intros page inputs; unfold locate_search_input.
  split.
  - intros e s H; rewrite H; reflexivity.
  - intros Hm; rewrite Hm; cbn [bind].
    split.
    + intros e s H; rewrite H; reflexivity.
    + intros Hc; rewrite Hc; cbn [bind].
      split; [| split].
      * intros m ->; reflexivity.
      * intros before inp after p -> Hb Ha; cbn [bind].
        rewrite (scan_inputs_first _ _ _ _ Hb Ha); reflexivity.
      * intros handles -> Hno; cbn [bind].
        rewrite (scan_inputs_none _ Hno); reflexivity.
Qed.

Lemma search_input_order_witness :
  locate_search_input (blank_page "") (Ret sample_inputs)
  = Ret (Some (input_element web_search_box),
         Some ("input[placeholder="
               ++ quoted "Search the Web for new sources" ++ "]")).
Proof.
  destruct (search_input_order (blank_page "") (Ret sample_inputs))
    as [_ Hmodal].
  destruct (Hmodal eq_refl) as [_ Hconf].
  destruct (Hconf eq_refl) as [_ [Hscan _]].
  apply (Hscan [ mkInputHandle (hidden_el "") (Ret (Some "Search the web"));
                 mkInputHandle detached_el (Ret None);
                 mkInputHandle (shown "") (Ret (Some "Notebook title")) ]
           web_search_box
           [ mkInputHandle (shown "") (Ret (Some "search the web again")) ]).
  - reflexivity.
  - intros i Hin p [Hv [[value [Hp ->]] Hs]].
    simpl in Hin; destruct Hin as [<- | [<- | [<- | []]]].
    + discriminate.
    + discriminate.
    + injection Hp as <-; vm_compute in Hs; discriminate.
  - split; [reflexivity | split; [| vm_compute; reflexivity]].
    exists (Some "Search the Web for new sources"); split; reflexivity.
Defined.
